(** * WhisperBot: the access-controlled message store and its query handlers

    A shallow embedding of [wspr.py].  The module-level dictionaries and the
    [users] collection become fields of an explicit [State] that every handler
    takes and returns; the calls a handler makes on the chat platform
    ([answer], [edit_message_text]) are returned as a list of [Call]s; the
    clock and the random source are inputs of the handler ([Env]).

    Boundaries of the model:
    - a text is a [string] holding the UTF-8 bytes of the Python [str];
      [isdigit], [isspace], [split] and the class [\d] work on its
      characters, with the tables of Unicode 14.0.0;
    - integers are unbounded ([Z]), as Python's; the size limits of the
      database encoding and of the platform's fields are not modelled, nor
      is the interpreter's limit on the digits [int] and [str] convert;
    - the database and the platform always answer: a failing collaborator
      is not modelled;
    - updates are handled one at a time ([run]): the interleaving of
      handlers at their awaits is not modelled;
    - [setup_db_indexes], [startup] and [shutdown] only talk to the
      database and the platform and are left out. *)

From Stdlib Require Import ZArith Ascii String List Lia.
From stdpp Require Import gmap strings list fin_maps.

Local Open Scope string_scope.
Local Open Scope Z_scope.

(** ** Python primitives used by the program *)

Module Py.

(** Exceptions the modelled code can raise. *)
Inductive exn : Type :=
| ValueError
| IndexError.

(** A computation that returns a value or raises. *)
Inductive result (A : Type) : Type :=
| Ok (a : A)
| Raise (e : exn).
Arguments Ok {A} a.
Arguments Raise {A} e.

Definition bind {A B} (m : result A) (k : A -> result B) : result B :=
  match m with
  | Ok a => k a
  | Raise e => Raise e
  end.

#[global] Instance result_ret : MRet result := fun _ a => Ok a.
#[global] Instance result_bind : MBind result := fun _ _ k m => bind m k.

(** [try: m except Exception: handler]. *)
Definition try_except {A} (m : result A) (handler : exn -> result A) : result A :=
  match m with
  | Ok a => Ok a
  | Raise e => handler e
  end.

(** *** Text

    A [str] is held as its UTF-8 bytes.  A character is a byte that is not
    a continuation byte together with the continuation bytes after it. *)

Definition byte (c : ascii) : Z := Z.of_N (N_of_ascii c).

(** A continuation byte, [10xxxxxx]. *)
Definition is_cont (c : ascii) : bool := (128 <=? byte c) && (byte c <? 192).

Definition starts_cont (s : string) : bool :=
  match s with
  | String c _ => is_cont c
  | EmptyString => false
  end.

(** The characters of a text, each with its bytes. *)
Fixpoint chars (s : string) : list string :=
  match s with
  | EmptyString => []
  | String b r =>
      match chars r with
      | c :: cs =>
          if starts_cont c then String b c :: cs
          else String b EmptyString :: c :: cs
      | [] => [String b EmptyString]
      end
  end.

(** The text made of the given characters. *)
Definition join (cs : list string) : string := foldr String.append EmptyString cs.

(** The code point a character encodes, and [-1] for bytes that encode
    none. *)
Definition code_point (ch : string) : Z :=
  match ch with
  | String b0 EmptyString => if byte b0 <? 128 then byte b0 else -1
  | String b0 (String b1 EmptyString) =>
      if (194 <=? byte b0) && (byte b0 <? 224) && is_cont b1
      then (byte b0 - 192) * 64 + (byte b1 - 128)
      else -1
  | String b0 (String b1 (String b2 EmptyString)) =>
      let cp := (byte b0 - 224) * 4096 + (byte b1 - 128) * 64 + (byte b2 - 128) in
      if (224 <=? byte b0) && (byte b0 <? 240) && is_cont b1 && is_cont b2
         && (2048 <=? cp)
      then cp else -1
  | String b0 (String b1 (String b2 (String b3 EmptyString))) =>
      let cp := (byte b0 - 240) * 262144 + (byte b1 - 128) * 4096
                + (byte b2 - 128) * 64 + (byte b3 - 128) in
      if (240 <=? byte b0) && (byte b0 <? 245) && is_cont b1 && is_cont b2
         && is_cont b3 && (65536 <=? cp) && (cp <? 1114112)
      then cp else -1
  | _ => -1
  end.

(** The tables of Unicode 14.0.0, as CPython 3.11 carries them:
    the code points [str.isspace] accepts (the same at which [str.split]
    splits), the zeros of the runs of ten decimal digits ([str.isdecimal],
    the class [\d], and what [int] reads), and the other code points
    [str.isdigit] accepts. *)
Definition space_ranges : list (Z * Z) :=
  [(9, 13); (28, 32); (133, 133); (160, 160); (5760, 5760); (8192, 8202);
   (8232, 8233); (8239, 8239); (8287, 8287); (12288, 12288)].

Definition decimal_zeros : list Z :=
  [48; 1632; 1776; 1984; 2406; 2534; 2662; 2790; 2918; 3046; 3174; 3302;
   3430; 3558; 3664; 3792; 3872; 4160; 4240; 6112; 6160; 6470; 6608; 6784;
   6800; 6992; 7088; 7232; 7248; 42528; 43216; 43264; 43472; 43504; 43600;
   44016; 65296; 66720; 68912; 69734; 69872; 69942; 70096; 70384; 70736;
   70864; 71248; 71360; 71472; 71904; 72016; 72784; 73040; 73120; 92768;
   92864; 93008; 120782; 120792; 120802; 120812; 120822; 123200; 123632;
   125264; 130032].

Definition other_digit_ranges : list (Z * Z) :=
  [(178, 179); (185, 185); (4969, 4977); (6618, 6618); (8304, 8304);
   (8308, 8313); (8320, 8329); (9312, 9320); (9332, 9340); (9352, 9360);
   (9450, 9450); (9461, 9469); (9471, 9471); (10102, 10110); (10112, 10120);
   (10122, 10130); (68160, 68163); (69216, 69224); (69714, 69722);
   (127232, 127242)].

Definition in_ranges (c : Z) (ranges : list (Z * Z)) : bool :=
  existsb (fun '(lo, hi) => (lo <=? c) && (c <=? hi)) ranges.

Definition isspace_cp (c : Z) : bool := in_ranges c space_ranges.

(** The value of a decimal digit. *)
Definition decimal_value (c : Z) : option Z :=
  match List.find (fun z => (z <=? c) && (c <=? z + 9)) decimal_zeros with
  | Some z => Some (c - z)
  | None => None
  end.

Definition isdecimal_cp (c : Z) : bool :=
  match decimal_value c with
  | Some _ => true
  | None => false
  end.

Definition isdigit_cp (c : Z) : bool :=
  isdecimal_cp c || in_ranges c other_digit_ranges.

Definition isspace_char (ch : string) : bool := isspace_cp (code_point ch).
Definition isdecimal_char (ch : string) : bool := isdecimal_cp (code_point ch).
Definition isdigit_char (ch : string) : bool := isdigit_cp (code_point ch).

(** [s.isspace()], [s.isdecimal()], [s.isdigit()]: every character is of
    the kind and there is at least one. *)
Definition isspace (s : string) : bool :=
  match chars s with
  | [] => false
  | cs => forallb isspace_char cs
  end.

Definition isdecimal (s : string) : bool :=
  match chars s with
  | [] => false
  | cs => forallb isdecimal_char cs
  end.

Definition isdigit (s : string) : bool :=
  match chars s with
  | [] => false
  | cs => forallb isdigit_char cs
  end.

(** [s.startswith(c)] for a one-character prefix. *)
Definition startswith_char (c : ascii) (s : string) : bool :=
  match s with
  | String d _ => Ascii.eqb c d
  | EmptyString => false
  end.

(** [s[1:]]. *)
Definition tail (s : string) : string :=
  match s with
  | String _ r => r
  | EmptyString => EmptyString
  end.

(** Skip leading whitespace. *)
Fixpoint drop_space (cs : list string) : list string :=
  match cs with
  | c :: r => if isspace_char c then drop_space r else cs
  | [] => []
  end.

Definition skip_space (s : string) : string := join (drop_space (chars s)).

(** The maximal prefix without whitespace, and what follows it. *)
Fixpoint take_word (cs : list string) : list string * list string :=
  match cs with
  | c :: r =>
      if isspace_char c then ([], cs)
      else let '(w, rest) := take_word r in (c :: w, rest)
  | [] => ([], [])
  end.

Definition span_word (s : string) : string * string :=
  let '(w, r) := take_word (chars s) in (join w, join r).

(** [s.split(maxsplit=1)]: leading whitespace is skipped; the first word
    ends at the first whitespace; the whitespace after it is skipped and
    what remains, when not empty, is the second item, trailing whitespace
    included. *)
Definition split_maxsplit1 (s : string) : list string :=
  match skip_space s with
  | EmptyString => []
  | s1 =>
      let '(w, r) := span_word s1 in
      match skip_space r with
      | EmptyString => [w]
      | r1 => [w; r1]
      end
  end.

(** The number a run of decimal digits denotes; a digit that is not
    decimal, such as a superscript, makes [int] raise. *)
Fixpoint int_chars (acc : Z) (cs : list string) : result Z :=
  match cs with
  | [] => Ok acc
  | c :: r =>
      match decimal_value (code_point c) with
      | Some d => int_chars (10 * acc + d) r
      | None => Raise ValueError
      end
  end.

(** [int(s)] on the texts the program passes to it, which are runs of
    digits (both calls are behind [isdigit] or [\d+], so no sign, blank or
    underscore can occur); anything else raises [ValueError] here.  The
    interpreter's limit on the number of digits (4300) is not modelled:
    the platform delivers queries of at most 256 characters and callback
    data of at most 64 bytes. *)
Definition int (s : string) : result Z :=
  if isdigit s then int_chars 0 (chars s) else Raise ValueError.

(** [xs[i]], raising [IndexError] out of range. *)
Definition index {A} (xs : list A) (i : nat) : result A :=
  match xs !! i with
  | Some x => Ok x
  | None => Raise IndexError
  end.

Definition digit_char (d : Z) : ascii := ascii_of_N (Z.to_N (48 + d)).

(** The decimal digits of a natural number, most significant first.  The
    recursion is on a bound of the number of digits. *)
Fixpoint digits_fuel (fuel : nat) (n : Z) : string :=
  match fuel with
  | O => String (digit_char (n mod 10)) EmptyString
  | S f =>
      if n <? 10 then String (digit_char n) EmptyString
      else digits_fuel f (n / 10) +:+ String (digit_char (n mod 10)) EmptyString
  end.

Definition digits (n : Z) : string := digits_fuel (Z.to_nat (Z.log2 n)) n.

(** [str(n)], as the f-strings format an integer. *)
Definition str (n : Z) : string :=
  if n <? 0 then String "-" (digits (- n)) else digits n.

(** [random.randint(a, b)]: [a] plus a draw below [b - a + 1]; the raw
    draw of the generator is reduced to that range. *)
Definition randint (draw : Z) (a b : Z) : Z := a + draw mod (b - a + 1).

End Py.

(** Runs of ASCII digits, which is what [str] prints for a natural
    number: the test, and the number read byte by byte. *)
Definition ascii_digit (c : ascii) : bool := (48 <=? Py.byte c) && (Py.byte c <=? 57).

Fixpoint ascii_digits (s : string) : bool :=
  match s with
  | EmptyString => true
  | String c r => ascii_digit c && ascii_digits r
  end.

Fixpoint ascii_value (acc : Z) (s : string) : Z :=
  match s with
  | EmptyString => acc
  | String c r => ascii_value (10 * acc + (Py.byte c - 48)) r
  end.

(** One character per byte. *)
Fixpoint singles (s : string) : list string :=
  match s with
  | EmptyString => []
  | String c r => String c EmptyString :: singles r
  end.


(** ** Data model *)

(** A [pyrogram.types.User], with the attributes the program reads. *)
Record User : Type := mkUser {
  id : Z;
  first_name : option string;
  last_name : option string;
  username : option string
}.

(** A document of the [users] collection, and also the [user_data]
    dictionary of [store_user_info]: the four keys that are always written,
    and the key ["username"], which may be absent ([None]). *)
Record UserDoc : Type := mkUserDoc {
  doc_user_id : Z;
  doc_first_name : option string;
  doc_last_name : option string;
  doc_last_seen : Z;
  doc_username : option string
}.

(** A value of [whisper_messages]: [[target_user_id, sender_id, message_content]]. *)
Abbreviation Whisper := (Z * Z * string)%type.

(** The mutable globals: [whisper_messages], the [users] collection in its
    natural (insertion) order, and the two username caches. *)
Record State : Type := mkState {
  whisper_messages : gmap Z Whisper;
  users_collection : list UserDoc;
  username_cache : gmap Z (string * Z);
  username_to_id_cache : gmap string (Z * Z)
}.

(** What a handler reads from outside: the successive readings of
    [datetime.now()] and the draw of the random generator. *)
Record Env : Type := mkEnv {
  now : nat -> Z;
  draw : Z
}.

Inductive Button : Type :=
| CallbackButton (text : string) (callback_data : string)
| SwitchInlineButton (text : string) (switch_inline_query_current_chat : string).

(** An [InlineQueryResultArticle]. *)
Record Article : Type := mkArticle {
  title : option string;
  description : string;
  input_message_content : string;
  reply_markup : option (list (list Button))
}.

(** The calls a handler makes on the platform. *)
Inductive Call : Type :=
| InlineAnswer (results : list Article) (cache_time : option Z)
| CallbackAnswer (text : string) (show_alert : bool)
| EditMessageText (text : string).

Record InlineQuery : Type := mkInlineQuery {
  query : string;
  iq_from_user : User
}.

Record CallbackQuery : Type := mkCallbackQuery {
  data : string;
  cq_from_user : User
}.

(** ** Helper functions *)

(** [generate_message_id]. *)
Definition generate_message_id (draw : Z) : Z :=
  Py.randint draw 10000000 999999999.

(** [users_collection.find_one({"user_id": n})]. *)
Definition find_one_user_id (n : Z) (users : list UserDoc) : option UserDoc :=
  List.find (fun d => doc_user_id d =? n) users.

(** [users_collection.find_one({"username": s})]: a document without the
    key does not match. *)
Definition find_one_username (s : string) (users : list UserDoc) : option UserDoc :=
  List.find (fun d => match doc_username d with
                      | Some u => String.eqb u s
                      | None => false
                      end) users.

(** [get_user_info].  The argument is the text taken from the query; an
    exception raised in the body is caught and gives [None]. *)
Definition get_user_info (username_or_id : string) (users : list UserDoc)
  : Py.result (option UserDoc) :=
  Py.try_except
    (if Py.isdigit username_or_id then
       n ← Py.int username_or_id;
       mret (find_one_user_id n users)
     else
       let username_or_id :=
         if Py.startswith_char "@" username_or_id
         then Py.tail username_or_id else username_or_id in
       mret (find_one_username username_or_id users))
    (fun _ => mret None).

(** Truth value of an optional text: [None] and the empty text are false. *)
Definition truthy (o : option string) : bool :=
  match o with
  | Some (String _ _) => true
  | _ => false
  end.

(** The effect of [{"$set": user_data}] on a stored document: every key of
    [user_data] is written, a key absent from it is left as it is. *)
Definition set_fields (user_data doc : UserDoc) : UserDoc :=
  {| doc_user_id := doc_user_id user_data;
     doc_first_name := doc_first_name user_data;
     doc_last_name := doc_last_name user_data;
     doc_last_seen := doc_last_seen user_data;
     doc_username := match doc_username user_data with
                     | Some u => Some u
                     | None => doc_username doc
                     end |}.

(** [update_one({"user_id": uid}, {"$set": user_data}, upsert=True)]: the
    first document with that [user_id] is updated in place; without one, a
    document is inserted with the fields of the filter and of [user_data]. *)
Fixpoint update_one_upsert (uid : Z) (user_data : UserDoc) (users : list UserDoc)
  : list UserDoc :=
  match users with
  | [] => [user_data]
  | d :: ds =>
      if doc_user_id d =? uid then set_fields user_data d :: ds
      else d :: update_one_upsert uid user_data ds
  end.

(** [store_user_info]. *)
Definition store_user_info (now : nat -> Z) (user : User) (st : State) : State :=
  let user_data :=
    {| doc_user_id := id user;
       doc_first_name := first_name user;
       doc_last_name := last_name user;
       doc_last_seen := now 0%nat;
       doc_username := if truthy (username user) then username user else None |} in
  let users := update_one_upsert (id user) user_data (users_collection st) in
  match username user with
  | Some (String _ _ as name) =>
      {| whisper_messages := whisper_messages st;
         users_collection := users;
         username_cache := <[id user := (name, now 1%nat)]> (username_cache st);
         username_to_id_cache := <[name := (id user, now 2%nat)]> (username_to_id_cache st) |}
  | _ =>
      {| whisper_messages := whisper_messages st;
         users_collection := users;
         username_cache := username_cache st;
         username_to_id_cache := username_to_id_cache st |}
  end.

(** ** The secret store

    The three operations on [whisper_messages], as the handlers perform
    them: the insertion of [handle_wspr_query], and the decisions of
    [show_message_callback] and [delete_message_callback] with their outcome
    named instead of rendered as a notice. *)

Module SecretStore.

Inductive RevealResult : Type :=
| Body (message_text : string)
| RevealDenied
| RevealNotFound.

Inductive DeleteResult : Type :=
| DeleteOk
| DeleteDenied
| DeleteNotFound.

(** Lines 192-201 of [handle_wspr_query]: draw an identifier and store
    the entry under it. *)
Definition register (draw : Z) (recipient_id sender_id : Z) (body : string)
    (wm : gmap Z Whisper) : Z * gmap Z Whisper :=
  let message_id := generate_message_id draw in
  (message_id, <[message_id := (recipient_id, sender_id, body)]> wm).

(** The decision of [show_message_callback]. *)
Definition reveal (message_id requester_id : Z) (wm : gmap Z Whisper) : RevealResult :=
  match wm !! message_id with
  | None => RevealNotFound
  | Some (target_id, sender_id, message_text) =>
      if requester_id =? target_id then Body message_text else RevealDenied
  end.

(** The decision of [delete_message_callback] and the store it leaves. *)
Definition delete (message_id requester_id : Z) (wm : gmap Z Whisper)
  : DeleteResult * gmap Z Whisper :=
  match wm !! message_id with
  | None => (DeleteNotFound, wm)
  | Some (target_id, sender_id, message_text) =>
      if requester_id =? sender_id then (DeleteOk, base.delete message_id wm)
      else (DeleteDenied, wm)
  end.

(** The notice shown for each outcome. *)
Definition reveal_notice (r : RevealResult) : string :=
  match r with
  | Body message_text => message_text
  | RevealDenied => "This message is not for you."
  | RevealNotFound => "This message has expired or does not exist."
  end.

Definition delete_calls (r : DeleteResult) : list Call :=
  match r with
  | DeleteOk => [CallbackAnswer "Message deleted." true;
                 EditMessageText "🗑 **This message has been deleted.**"]
  | DeleteDenied => [CallbackAnswer "Only the sender can delete this message." true]
  | DeleteNotFound => [CallbackAnswer "This message has already been deleted." true]
  end.

End SecretStore.

(** ** Handlers *)

Definition set_whisper_messages (wm : gmap Z Whisper) (st : State) : State :=
  {| whisper_messages := wm;
     users_collection := users_collection st;
     username_cache := username_cache st;
     username_to_id_cache := username_to_id_cache st |}.

(** An article without buttons, as the three error answers build it. *)
Definition plain_article (title description content : string) : Article :=
  {| title := Some title;
     description := description;
     input_message_content := content;
     reply_markup := None |}.

(** The filter [regex(r"^wspr")]. *)
Definition regex_wspr (q : string) : bool := String.prefix "wspr" q.

(** [handle_wspr_query].  Every document has the key ["first_name"], so the
    default of [user_info.get("first_name", "User")] is never used and the
    title is the stored value. *)
Definition handle_wspr_query (env : Env) (inline_query : InlineQuery) (st : State)
  : Py.result (State * list Call) :=
  let query_parts := Py.split_maxsplit1 (query inline_query) in
  let st := store_user_info (now env) (iq_from_user inline_query) st in
  if (length query_parts <? 2)%nat then
    mret (st, [InlineAnswer
                 [plain_article "Give Username"
                    "You didn't type a username or ID."
                    "You didn't specify a username or ID."] None])
  else
    part1 ← Py.index query_parts 1;
    target ← Py.index (Py.split_maxsplit1 part1) 0;
    user_info ← get_user_info target (users_collection st);
    match user_info with
    | None =>
        mret (st, [InlineAnswer
                     [plain_article "User Not Found"
                        "Make sure username or ID is correct."
                        "Make sure username or ID is correct."] None])
    | Some user_info =>
        if (length (Py.split_maxsplit1 part1) <? 2)%nat then
          mret (st, [InlineAnswer
                       [plain_article "Type your message"
                          "You didn't type your message."
                          "You didn't type your message."] None])
        else
          message_text ← Py.index (Py.split_maxsplit1 part1) 1;
          let user_display :=
            match doc_username user_info with
            | Some u => u
            | None => "user" +:+ Py.str (doc_user_id user_info)
            end in
          let user_display :=
            if truthy (doc_username user_info) then "@" +:+ user_display
            else user_display in
          let '(message_id, wm) :=
            SecretStore.register (draw env) (doc_user_id user_info)
              (id (iq_from_user inline_query)) message_text (whisper_messages st) in
          mret (set_whisper_messages wm st,
                [InlineAnswer
                   [{| title := doc_first_name user_info;
                       description := message_text;
                       input_message_content :=
                         "🔒 **Secret Message** for " +:+ user_display;
                       reply_markup :=
                         Some [[CallbackButton "📖 Show Message"
                                  ("show_" +:+ Py.str message_id);
                                CallbackButton "🗑 Delete"
                                  ("del_" +:+ Py.str message_id)];
                               [SwitchInlineButton "📝 New Message"
                                  ("wspr " +:+ target +:+ " ")]] |}]
                   (Some 1)])
    end.

(** Remove a literal prefix. *)
Fixpoint strip_prefix (p s : string) : option string :=
  match p, s with
  | EmptyString, _ => Some s
  | String a p', String b s' => if Ascii.eqb a b then strip_prefix p' s' else None
  | String _ _, EmptyString => None
  end.

(** The longest run of decimal digits at the head, and what follows. *)
Fixpoint take_decimal (cs : list string) : list string * list string :=
  match cs with
  | c :: r =>
      if Py.isdecimal_char c then let '(ds, rest) := take_decimal r in (c :: ds, rest)
      else ([], cs)
  | [] => ([], [])
  end.

(** A match of [^<prefix>(\d+)$] gives group 1.  [\d] is a decimal digit of
    any script; [$] matches at the end of the text and before a line feed
    that ends it. *)
Definition regex_token (prefix : string) (s : string) : option string :=
  match strip_prefix prefix s with
  | None => None
  | Some rest =>
      let '(ds, tl) := take_decimal (Py.chars rest) in
      match ds with
      | [] => None
      | _ =>
          if String.eqb (Py.join tl) "" || String.eqb (Py.join tl) (String "010" EmptyString)
          then Some (Py.join ds) else None
      end
  end.

(** The filters [regex(r"^show_(\d+)$")] and [regex(r"^del_(\d+)$")]. *)
Definition regex_show : string -> option string := regex_token "show_".
Definition regex_del : string -> option string := regex_token "del_".

(** [show_message_callback]; [group1] is [callback_query.matches[0].group(1)]. *)
Definition show_message_callback (group1 : string) (callback_query : CallbackQuery)
    (st : State) : Py.result (State * list Call) :=
  message_id ← Py.int group1;
  match whisper_messages st !! message_id with
  | None =>
      mret (st, [CallbackAnswer "This message has expired or does not exist." true])
  | Some (target_id, sender_id, message_text) =>
      if id (cq_from_user callback_query) =? target_id then
        mret (st, [CallbackAnswer message_text true])
      else
        mret (st, [CallbackAnswer "This message is not for you." true])
  end.

(** [delete_message_callback].  A [BadRequest] raised by the edit is caught
    and ignored, so the handler ends the same way with or without it. *)
Definition delete_message_callback (group1 : string) (callback_query : CallbackQuery)
    (st : State) : Py.result (State * list Call) :=
  message_id ← Py.int group1;
  match whisper_messages st !! message_id with
  | None =>
      mret (st, [CallbackAnswer "This message has already been deleted." true])
  | Some (target_id, sender_id, message_text) =>
      if id (cq_from_user callback_query) =? sender_id then
        mret (set_whisper_messages (delete message_id (whisper_messages st)) st,
              [CallbackAnswer "Message deleted." true;
               EditMessageText "🗑 **This message has been deleted.**"])
      else
        mret (st, [CallbackAnswer "Only the sender can delete this message." true])
  end.

(** The same reveal button pressed [n] times in a row by the same user:
    each press runs on the state the press before left. *)
Fixpoint show_times (n : nat) (group1 : string) (callback_query : CallbackQuery)
    (st : State) : Py.result (State * list Call) :=
  match n with
  | O => mret (st, [])
  | S k =>
      '(st1, calls1) ← show_message_callback group1 callback_query st;
      '(st2, calls2) ← show_times k group1 callback_query st1;
      mret (st2, (calls1 ++ calls2)%list)
  end.

(** The dispatch of a button press: the handler whose filter matches runs;
    without a match no handler runs. *)
Definition on_callback_query (callback_query : CallbackQuery) (st : State)
  : option (Py.result (State * list Call)) :=
  match regex_show (data callback_query) with
  | Some group1 => Some (show_message_callback group1 callback_query st)
  | None =>
      match regex_del (data callback_query) with
      | Some group1 => Some (delete_message_callback group1 callback_query st)
      | None => None
      end
  end.

(** The three shapes of a compose query, by the tests of
    [handle_wspr_query]: [query_parts] has fewer than two items; the second
    item splits into a target only; it splits into a target and a body. *)
Inductive Compose : Type :=
| NoTarget
| TargetOnly (target : string)
| TargetBody (target body : string).

Definition compose_form (q : string) : Compose :=
  match Py.split_maxsplit1 q with
  | [_; rest] =>
      match Py.split_maxsplit1 rest with
      | [target] => TargetOnly target
      | [target; body] => TargetBody target body
      | _ => NoTarget
      end
  | _ => NoTarget
  end.

(** The article that carries the buttons of a registered whisper. *)
Definition whisper_article (user_info : UserDoc) (target message_text : string)
    (message_id : Z) : Article :=
  {| title := doc_first_name user_info;
     description := message_text;
     input_message_content :=
       "🔒 **Secret Message** for " +:+
       (if truthy (doc_username user_info)
        then "@" +:+ default "" (doc_username user_info)
        else match doc_username user_info with
             | Some u => u
             | None => "user" +:+ Py.str (doc_user_id user_info)
             end);
     reply_markup :=
       Some [[CallbackButton "📖 Show Message" ("show_" +:+ Py.str message_id);
              CallbackButton "🗑 Delete" ("del_" +:+ Py.str message_id)];
             [SwitchInlineButton "📝 New Message" ("wspr " +:+ target +:+ " ")]] |}.

(** ** Sample data for the concrete runs *)

Module Sample.

Definition user42 : User := mkUser 42 (Some "Bob") None (Some "bob").
Definition user7 : User := mkUser 7 (Some "Al") None (Some "alice").
Definition user99 : User := mkUser 99 (Some "Eve") None None.

(** User 7 after dropping the handle. *)
Definition user7_no_handle : User := mkUser 7 (Some "Al") None None.

Definition doc42 : UserDoc := mkUserDoc 42 (Some "Bob") None 100 (Some "bob").
Definition doc7 : UserDoc := mkUserDoc 7 (Some "Al") None 100 (Some "alice").
Definition doc123 : UserDoc := mkUserDoc 123 (Some "Cy") None 100 None.

Definition users : list UserDoc := [doc42; doc7; doc123].

(** One pending whisper from 7 to 42 under the smallest identifier. *)
Definition pending : gmap Z Whisper := {[ 10000000 := (42, 7, "hi") ]}.

Definition state : State :=
  {| whisper_messages := pending;
     users_collection := users;
     username_cache := ∅;
     username_to_id_cache := ∅ |}.

Definition no_whispers : State :=
  {| whisper_messages := ∅;
     users_collection := users;
     username_cache := ∅;
     username_to_id_cache := ∅ |}.

Definition clock : nat -> Z := fun k => 200 + Z.of_nat k.

(** The draw 0 gives the identifier 10000000. *)
Definition env : Env := {| now := clock; draw := 0 |}.

Definition press (u : User) : CallbackQuery := mkCallbackQuery "show_10000000" u.

End Sample.

(** ** The info card, the two commands and the dispatch of events *)

(** The buttons of the info card and of the welcome message: a link, or a
    button that prefills an inline query. *)
Inductive InfoButton : Type :=
| UrlButton (text : string) (url : string)
| SwitchButton (text : string) (switch_inline_query_current_chat : string).

(** The articles of [handle_msg_query]. *)
Record InfoArticle : Type := mkInfoArticle {
  info_title : option string;
  info_description : string;
  info_content : string;
  info_markup : option (list (list InfoButton))
}.

(** Everything a handler can send: the calls of the whisper handlers, the
    answer of [handle_msg_query], and [message.reply] (always with
    [parse_mode=ParseMode.MARKDOWN]). *)
Inductive Output : Type :=
| Platform (c : Call)
| InfoAnswer (results : list InfoArticle) (cache_time : option Z)
| Reply (text : string) (markup : option (list (list InfoButton))).

(** The line feed. *)
Definition nl : string := String "010" EmptyString.

(** What an f-string prints for an optional text: [None] prints as "None". *)
Definition fmt_opt (o : option string) : string :=
  match o with
  | Some s => s
  | None => "None"
  end.

(** The filter [regex(r"^msg")]. *)
Definition regex_msg (q : string) : bool := String.prefix "msg" q.

(** [handle_msg_query].  The target is the whole second item of the split,
    inner and trailing whitespace included. *)
Definition handle_msg_query (env : Env) (inline_query : InlineQuery) (st : State)
  : Py.result (State * list Output) :=
  let query_parts := Py.split_maxsplit1 (query inline_query) in
  let st := store_user_info (now env) (iq_from_user inline_query) st in
  if (length query_parts <? 2)%nat then
    mret (st, [InfoAnswer
                 [{| info_title := Some "Give Username";
                     info_description := "You didn't type a username or ID.";
                     info_content := "You didn't specify a username or ID.";
                     info_markup := None |}] None])
  else
    target ← Py.index query_parts 1;
    user_info ← get_user_info target (users_collection st);
    match user_info with
    | None =>
        let name := "Can't find user: " +:+ target in
        mret (st, [InfoAnswer
                     [{| info_title := Some name;
                         info_description := "User not found";
                         info_content := name;
                         info_markup := None |}] None])
    | Some user_info =>
        let user_id := doc_user_id user_info in
        let first_name := doc_first_name user_info in
        let username := doc_username user_info in
        let text := "**Name:** `" +:+ fmt_opt first_name +:+ "`" +:+ nl in
        let text := text +:+ "**ID:** `" +:+ Py.str user_id +:+ "`" +:+ nl in
        let '(text, url) :=
          if truthy username then
            (text +:+ "**Username:** `" +:+ fmt_opt username +:+ "`" +:+ nl,
             "https://t.me/" +:+ fmt_opt username)
          else
            let mention :=
              "[" +:+ fmt_opt first_name +:+ "](tg://user?id=" +:+ Py.str user_id +:+ ")" in
            (text +:+ "**Mention:** " +:+ mention +:+ nl,
             "tg://user?id=" +:+ Py.str user_id) in
        let buttons :=
          [[UrlButton "Private" url;
            SwitchButton "Secret Message"
              ("wspr " +:+ (if truthy username then fmt_opt username else Py.str user_id)
               +:+ " Hello 👋")]] in
        mret (st, [InfoAnswer
                     [{| info_title := first_name;
                         info_description := "Touch me";
                         info_content := text;
                         info_markup := Some buttons |}] (Some 60)])
    end.

(** [start_command]; [bot_username] is [(await client.get_me()).username]. *)
Definition start_command (env : Env) (bot_username : option string) (from_user : User)
    (st : State) : State * list Output :=
  let st := store_user_info (now env) from_user st in
  let welcome_text :=
    "👋 Hello, " +:+ fmt_opt (first_name from_user) +:+ "!" +:+ nl +:+ nl +:+
    "I'm **Whisper Bot** - I help you send secret messages that can only be viewed by the intended recipient." +:+ nl +:+ nl +:+
    "**How to use me:**" +:+ nl +:+
    "1. Type `@" +:+ fmt_opt bot_username +:+ " wspr @username your_message` in any chat" +:+ nl +:+
    "2. The recipient will see a button to view your message" +:+ nl +:+
    "3. Only they can read the message" +:+ nl +:+ nl +:+
    "You can also use: `@" +:+ fmt_opt bot_username +:+ " msg @username` to get user info." +:+ nl +:+ nl +:+
    "Try it now!" in
  (st, [Reply welcome_text
          (Some [[SwitchButton "Try Whisper" "wspr "];
                 [SwitchButton "User Info" "msg "]])]).

(** [help_command]. *)
Definition help_command (bot_username : option string) (st : State)
  : State * list Output :=
  let help_text :=
    "🔒 **Whisper Bot Help**" +:+ nl +:+ nl +:+
    "Send private messages that can only be viewed by the intended recipient." +:+ nl +:+ nl +:+
    "**Commands:**" +:+ nl +:+
    "/start - Start the bot" +:+ nl +:+
    "/help - Show this help message" +:+ nl +:+ nl +:+
    "**How to use:**" +:+ nl +:+
    "1. Whisper format: `@" +:+ fmt_opt bot_username +:+ " wspr @username message`" +:+ nl +:+
    "2. User info format: `@" +:+ fmt_opt bot_username +:+ " msg @username`" +:+ nl +:+ nl +:+
    "Only the intended recipient can view the message." +:+ nl +:+
    "The sender can delete the message at any time." in
  (st, [Reply help_text None]).

(** The calls of a whisper handler among the outputs. *)
Definition lift_calls (r : Py.result (State * list Call))
  : Py.result (State * list Output) :=
  match r with
  | Py.Ok (st, calls) => Py.Ok (st, Platform <$> calls)
  | Py.Raise e => Py.Raise e
  end.

(** The dispatch of an inline query: the first handler whose filter matches
    runs, [handle_wspr_query] being registered before [handle_msg_query]. *)
Definition on_inline_query (env : Env) (inline_query : InlineQuery) (st : State)
  : option (Py.result (State * list Output)) :=
  if regex_wspr (query inline_query) then
    Some (lift_calls (handle_wspr_query env inline_query st))
  else if regex_msg (query inline_query) then
    Some (handle_msg_query env inline_query st)
  else None.

(** One update delivered to the bot. *)
Inductive Event : Type :=
| InlineQueryEvent (env : Env) (inline_query : InlineQuery)
| CallbackQueryEvent (callback_query : CallbackQuery)
| StartCommand (env : Env) (bot_username : option string) (from_user : User)
| HelpCommand (bot_username : option string).

(** The handling of one update; an update no filter matches changes
    nothing and sends nothing. *)
Definition handle_event (ev : Event) (st : State) : Py.result (State * list Output) :=
  match ev with
  | InlineQueryEvent env inline_query =>
      match on_inline_query env inline_query st with
      | Some r => r
      | None => mret (st, [])
      end
  | CallbackQueryEvent callback_query =>
      match on_callback_query callback_query st with
      | Some r => lift_calls r
      | None => mret (st, [])
      end
  | StartCommand env bot_username from_user =>
      mret (start_command env bot_username from_user st)
  | HelpCommand bot_username => mret (help_command bot_username st)
  end.

(** Updates handled one after the other, each on the state the one before
    left. *)
Fixpoint run (events : list Event) (st : State) : Py.result (State * list Output) :=
  match events with
  | [] => mret (st, [])
  | ev :: rest =>
      '(st1, out1) ← handle_event ev st;
      '(st2, out2) ← run rest st1;
      mret (st2, (out1 ++ out2)%list)
  end.

(** The state of a fresh process on an empty database. *)
Definition initial_state : State :=
  {| whisper_messages := ∅;
     users_collection := [];
     username_cache := ∅;
     username_to_id_cache := ∅ |}.

(** The identifiers of the stored profiles. *)
Definition user_ids (st : State) : list Z := doc_user_id <$> users_collection st.

(** A text without whitespace. *)
Definition no_space (s : string) : bool :=
  forallb (fun c => negb (Py.isspace_char c)) (Py.chars s).

(** A word: not empty and without whitespace. *)
Definition is_word (s : string) : bool :=
  match s with
  | EmptyString => false
  | String _ _ => no_space s
  end.


(** What every handler keeps true of the state: one profile per
    identifier; no stored handle is empty; every pending whisper lies under
    an identifier of the generator's range, names a stored profile as
    recipient and as sender, and has a body that is not empty. *)
Record state_ok (st : State) : Prop := mk_state_ok {
  ok_ids : NoDup (user_ids st);
  ok_handles : forall d, d ∈ users_collection st -> doc_username d <> Some "";
  ok_whispers : forall i r s body,
    whisper_messages st !! i = Some (r, s, body) ->
    10000000 <= i <= 999999999 /\ r ∈ user_ids st /\ s ∈ user_ids st /\ body <> ""
}.

(** A character that starts at a byte that is not a continuation byte:
    every character of [Py.chars] after the first is one. *)
Definition boundary (c : string) : Prop := Py.starts_cont c = false /\ c <> "".

(** ** Sample texts beyond ASCII *)

Module SampleText.

(** The no-break space, U+00A0. *)
Definition nbsp : string := String "194" (String "160" EmptyString).

(** The Arabic-Indic digits one, two, three: U+0661, U+0662, U+0663. *)
Definition arabic_123 : string :=
  String "217" (String "161" (String "217" (String "162"
    (String "217" (String "163" EmptyString))))).

(** The superscript two, U+00B2: a digit that is not decimal. *)
Definition superscript_two : string := String "194" (String "178" EmptyString).

End SampleText.

(** * Properties *)

(** ** Texts and their characters *)

Section Text.

Lemma append_nil_l (s : string) : "" +:+ s = s.
Proof. reflexivity. Qed.

Lemma append_cons (a : ascii) (x s : string) : String a x +:+ s = String a (x +:+ s).
Proof. reflexivity. Qed.

Lemma append_nil_r (s : string) : s +:+ "" = s.
Proof.
  induction s as [| a x IH]; [reflexivity |]. rewrite append_cons, IH. reflexivity.
Qed.

Lemma append_assoc (a b c : string) : (a +:+ b) +:+ c = a +:+ b +:+ c.
Proof.
  induction a as [| x a IH]; [reflexivity |]. rewrite !append_cons, IH. reflexivity.
Qed.

Lemma join_cons (c : string) (cs : list string) : Py.join (c :: cs) = c +:+ Py.join cs.
Proof. reflexivity. Qed.

Lemma join_app (xs ys : list string) : Py.join (xs ++ ys)%list = Py.join xs +:+ Py.join ys.
Proof.
  induction xs as [| x xs IH]; [reflexivity |].
  rewrite <- app_comm_cons, !join_cons, IH, append_assoc. reflexivity.
Qed.

(** What [chars] does at one more byte in front. *)
Lemma chars_cons (b : ascii) (r : string) :
  Py.chars (String b r) =
    match Py.chars r with
    | c :: cs =>
        if Py.starts_cont c then String b c :: cs
        else String b EmptyString :: c :: cs
    | [] => [String b EmptyString]
    end.
Proof. reflexivity. Qed.

Lemma join_chars (s : string) : Py.join (Py.chars s) = s.
Proof.
  induction s as [| b r IH]; [reflexivity |]. rewrite chars_cons.
  destruct (Py.chars r) as [| c cs].
  - cbn in IH. subst r. reflexivity.
  - destruct (Py.starts_cont c).
    + rewrite join_cons in *. rewrite append_cons, IH. reflexivity.
    + rewrite join_cons, append_cons, append_nil_l, IH. reflexivity.
Qed.

Lemma chars_nil (s : string) : Py.chars s = [] -> s = "".
Proof. intros H. rewrite <- (join_chars s), H. reflexivity. Qed.

(** The first character starts as the text does, and every character is
    at least one byte. *)
Lemma chars_head (s c : string) (cs : list string) :
  Py.chars s = c :: cs -> Py.starts_cont c = Py.starts_cont s /\ c <> "".
Proof.
  destruct s as [| b r]; [discriminate |]. rewrite chars_cons.
  destruct (Py.chars r) as [| c' cs']; [intros [= <- _]; split; [reflexivity | discriminate] |].
  destruct (Py.starts_cont c'); intros [= <- _]; split; (reflexivity || discriminate).
Qed.

Lemma chars_tail_boundary (s c : string) (cs : list string) :
  Py.chars s = c :: cs -> Forall boundary cs.
Proof.
  revert c cs. induction s as [| b r IH]; intros c cs; [discriminate |].
  rewrite chars_cons. destruct (Py.chars r) as [| c' cs'] eqn:Hr.
  - intros [= _ <-]. constructor.
  - destruct (Py.starts_cont c') eqn:Hc'; intros [= _ <-].
    + apply (IH c' cs' eq_refl).
    + constructor; [| apply (IH c' cs' eq_refl)].
      split; [exact Hc' |]. apply (chars_head r c' cs' Hr).
Qed.

Lemma chars_join_tail (s c : string) (cs : list string) :
  Py.chars s = c :: cs -> Py.chars (Py.join cs) = cs.
Proof.
  revert c cs. induction s as [| b r IH]; intros c cs; [discriminate |].
  rewrite chars_cons. destruct (Py.chars r) as [| c' cs'] eqn:Hr.
  - intros [= _ <-]. reflexivity.
  - destruct (Py.starts_cont c'); intros [= _ <-].
    + apply (IH c' cs' eq_refl).
    + rewrite <- Hr, join_chars. reflexivity.
Qed.

(** The characters of a suffix of the characters. *)
Lemma chars_join_suffix (pre suf : list string) (s : string) :
  Py.chars s = (pre ++ suf)%list -> Py.chars (Py.join suf) = suf.
Proof.
  revert s. induction pre as [| c pre IH]; intros s Hs.
  - cbn in Hs. rewrite <- Hs, join_chars. reflexivity.
  - rewrite <- app_comm_cons in Hs. apply chars_join_tail in Hs.
    apply (IH _ Hs).
Qed.

Lemma starts_cont_app (a b : string) :
  Py.starts_cont (a +:+ b) = match a with EmptyString => Py.starts_cont b | _ => Py.starts_cont a end.
Proof. destruct a; reflexivity. Qed.

Lemma starts_cont_join (cs : list string) :
  Forall boundary cs -> Py.starts_cont (Py.join cs) = false.
Proof.
  intros [| c cs' [Hc Hne] _]; [reflexivity |].
  rewrite join_cons, starts_cont_app. destruct c; [congruence | exact Hc].
Qed.

(** The characters of two texts put together, when the second starts a
    character. *)
Lemma chars_app (a b : string) :
  Py.starts_cont b = false -> Py.chars (a +:+ b) = (Py.chars a ++ Py.chars b)%list.
Proof.
  intros Hb. induction a as [| x a IH]; [reflexivity |].
  rewrite append_cons, !chars_cons, IH.
  destruct (Py.chars a) as [| c cs] eqn:Ha.
  - apply chars_nil in Ha. subst a. cbn [app].
    destruct (Py.chars b) as [| c cs] eqn:Hcb; [reflexivity |].
    destruct (chars_head b c cs Hcb) as [-> _]. rewrite Hb. reflexivity.
  - cbn [app]. destruct (Py.starts_cont c); reflexivity.
Qed.

(** The characters of a prefix of the characters. *)
Lemma chars_join_prefix (pre suf : list string) (s : string) :
  Py.chars s = (pre ++ suf)%list -> Py.chars (Py.join pre) = pre.
Proof.
  intros Hs. destruct pre as [| c pre]; [reflexivity |].
  assert (Hsuf : Py.starts_cont (Py.join suf) = false).
  { apply starts_cont_join. rewrite <- app_comm_cons in Hs.
    apply chars_tail_boundary in Hs. apply Forall_app in Hs. apply Hs. }
  pose proof (chars_join_suffix _ _ _ Hs) as Hsuf'.
  pose proof (join_chars s) as Hj. rewrite Hs, join_app in Hj.
  rewrite <- Hj in Hs. rewrite (chars_app _ _ Hsuf), Hsuf' in Hs.
  apply app_inv_tail in Hs. exact Hs.
Qed.

Lemma join_nil (cs : list string) :
  Forall (fun c => c <> "") cs -> Py.join cs = "" -> cs = [].
Proof.
  intros [| c cs' Hc _]; [reflexivity |]. rewrite join_cons.
  destruct c; [congruence | discriminate].
Qed.

Lemma chars_nonempty (s : string) : Forall (fun c => c <> "") (Py.chars s).
Proof.
  destruct (Py.chars s) as [| c cs] eqn:Hs; [constructor |].
  constructor; [apply (chars_head s c cs Hs) |].
  apply chars_tail_boundary in Hs.
  apply (Forall_impl _ _ _ Hs). intros x [_ Hx]. exact Hx.
Qed.

End Text.

(** ** Decimal text of an identifier *)

Section Decimal.

Lemma in_ranges_false (c : Z) (ranges : list (Z * Z)) :
  Forall (fun r => c < fst r \/ snd r < c) ranges -> Py.in_ranges c ranges = false.
Proof.
  unfold Py.in_ranges. induction 1 as [| [lo hi] rs Hr _ IH]; [reflexivity |].
  cbn [existsb fst snd] in *. rewrite IH, orb_false_r.
  apply andb_false_iff. destruct Hr; [left | right]; apply Z.leb_gt; lia.
Qed.

Lemma byte_range (c : ascii) : 0 <= Py.byte c < 256.
Proof.
  unfold Py.byte. pose proof (N_ascii_bounded c). lia.
Qed.

(** An ASCII digit is a character of its own, a decimal digit with the
    expected value, and no whitespace. *)
Lemma ascii_digit_char (b : ascii) :
  ascii_digit b = true ->
  Py.is_cont b = false /\
  Py.decimal_value (Py.code_point (String b "")) = Some (Py.byte b - 48) /\
  Py.isspace_char (String b "") = false.
Proof.
  unfold ascii_digit. intros [Hlo Hhi]%andb_true_iff.
  apply Z.leb_le in Hlo, Hhi.
  assert (Hcp : Py.code_point (String b "") = Py.byte b).
  { cbn [Py.code_point]. destruct (Py.byte b <? 128) eqn:H; [reflexivity |].
    apply Z.ltb_ge in H. lia. }
  split; [| split].
  - unfold Py.is_cont. apply andb_false_iff. left. apply Z.leb_gt. lia.
  - rewrite Hcp. unfold Py.decimal_value, Py.decimal_zeros. cbn [find].
    assert (Htest : (48 <=? Py.byte b) && (Py.byte b <=? 48 + 9) = true).
    { apply andb_true_iff. split; apply Z.leb_le; lia. }
    rewrite Htest. reflexivity.
  - unfold Py.isspace_char, Py.isspace_cp. rewrite Hcp.
    apply in_ranges_false. unfold Py.space_ranges.
    repeat (constructor; [cbn [fst snd]; lia |]). constructor.
Qed.

Lemma digit_char_spec (d : Z) :
  0 <= d < 10 ->
  ascii_digit (Py.digit_char d) = true /\ Py.byte (Py.digit_char d) - 48 = d.
Proof.
  intros Hd.
  assert (Hcases : d = 0 \/ d = 1 \/ d = 2 \/ d = 3 \/ d = 4 \/
                   d = 5 \/ d = 6 \/ d = 7 \/ d = 8 \/ d = 9) by lia.
  repeat (destruct Hcases as [-> | Hcases]; [split; reflexivity |]).
  subst d; split; reflexivity.
Qed.

Lemma ascii_digits_app (a b : string) :
  ascii_digits (a +:+ b) = ascii_digits a && ascii_digits b.
Proof.
  induction a as [| c a IH]; [reflexivity |].
  rewrite append_cons. cbn [ascii_digits]. rewrite IH. apply andb_assoc.
Qed.

Lemma ascii_value_app (a b : string) (acc : Z) :
  ascii_value acc (a +:+ b) = ascii_value (ascii_value acc a) b.
Proof.
  revert acc. induction a as [| c a IH]; intros acc; [reflexivity |].
  rewrite append_cons. cbn [ascii_value]. apply IH.
Qed.

Lemma log2_bound (n k : Z) : 0 <= n -> 0 <= k -> Z.log2 n <= k -> n < 2 ^ (k + 1).
Proof.
  intros Hn Hk Hlog.
  destruct (Z.eq_dec n 0) as [-> | Hne].
  - apply Z.pow_pos_nonneg; lia.
  - destruct (Z.log2_spec n) as [_ Hlt]; [lia |].
    eapply Z.lt_le_trans; [exact Hlt |].
    apply Z.pow_le_mono_r; lia.
Qed.

Lemma log2_div10 (n : Z) : 10 <= n -> Z.log2 (n / 10) < Z.log2 n.
Proof.
  intros Hn.
  assert (Hq : 0 < n / 10) by (apply Z.div_str_pos; lia).
  assert (Hle : 2 * (n / 10) <= n).
  { pose proof (Z.mul_div_le n 10 ltac:(lia)). lia. }
  pose proof (Z.log2_double (n / 10) Hq) as Hd.
  pose proof (Z.log2_le_mono _ _ Hle). lia.
Qed.

Lemma digits_fuel_spec (fuel : nat) : forall n : Z,
  0 <= n -> Z.log2 n <= Z.of_nat fuel ->
  ascii_digits (Py.digits_fuel fuel n) = true /\
  ascii_value 0 (Py.digits_fuel fuel n) = n /\
  Py.digits_fuel fuel n <> "".
Proof.
  induction fuel as [| f IH]; intros n Hn Hlog.
  - pose proof (log2_bound n 0 Hn ltac:(lia) Hlog) as Hlt.
    change (2 ^ (0 + 1)) with 2 in Hlt.
    cbn [Py.digits_fuel]. rewrite Z.mod_small by lia.
    destruct (digit_char_spec n ltac:(lia)) as [Hd Hv].
    cbn [ascii_digits ascii_value]. rewrite Hd, Hv.
    split; [reflexivity | split; [lia | discriminate]].
  - cbn [Py.digits_fuel].
    destruct (n <? 10) eqn:Hsmall.
    + apply Z.ltb_lt in Hsmall.
      destruct (digit_char_spec n ltac:(lia)) as [Hd Hv].
      cbn [ascii_digits ascii_value]. rewrite Hd, Hv.
      split; [reflexivity | split; [lia | discriminate]].
    + apply Z.ltb_ge in Hsmall.
      pose proof (log2_div10 n Hsmall) as Hdec.
      destruct (IH (n / 10)) as (Hall & Hint & Hne);
        [apply Z.div_pos; lia | lia |].
      destruct (digit_char_spec (n mod 10)) as [Hd Hv];
        [apply Z.mod_pos_bound; lia |].
      rewrite ascii_digits_app, ascii_value_app, Hall, Hint.
      cbn [ascii_digits ascii_value]. rewrite Hd, Hv.
      split; [reflexivity | split].
      * pose proof (Z.div_mod n 10 ltac:(lia)). lia.
      * destruct (Py.digits_fuel f (n / 10)); [congruence | discriminate].
Qed.

Lemma digits_spec (n : Z) :
  0 <= n ->
  ascii_digits (Py.digits n) = true /\ ascii_value 0 (Py.digits n) = n /\
  Py.digits n <> "".
Proof.
  intros Hn. unfold Py.digits.
  apply (digits_fuel_spec (Z.to_nat (Z.log2 n)) n Hn).
  pose proof (Z.log2_nonneg n). lia.
Qed.

(** A run of ASCII digits has one character per byte. *)
Lemma chars_ascii_digits (s : string) :
  ascii_digits s = true -> Py.chars s = singles s.
Proof.
  induction s as [| b r IH]; [reflexivity |]. cbn [ascii_digits singles].
  intros [_ Hr]%andb_true_iff. rewrite chars_cons, (IH Hr).
  destruct r as [| b' r']; [reflexivity |]. cbn [singles Py.starts_cont].
  cbn [ascii_digits] in Hr. apply andb_true_iff in Hr as [Hb' _].
  destruct (ascii_digit_char b' Hb') as [-> _]. reflexivity.
Qed.

Lemma singles_ascii_digits (s : string) :
  ascii_digits s = true ->
  forallb Py.isdecimal_char (singles s) = true /\
  forallb Py.isdigit_char (singles s) = true /\
  forallb (fun c => negb (Py.isspace_char c)) (singles s) = true /\
  forall acc, Py.int_chars acc (singles s) = Py.Ok (ascii_value acc s).
Proof.
  induction s as [| b r IH]; [repeat split; reflexivity |].
  cbn [ascii_digits singles forallb Py.int_chars ascii_value].
  intros [Hb Hr]%andb_true_iff.
  destruct (ascii_digit_char b Hb) as (_ & Hval & Hsp).
  destruct (IH Hr) as (H1 & H2 & H3 & H4).
  unfold Py.isdecimal_char, Py.isdigit_char, Py.isdigit_cp, Py.isdecimal_cp.
  rewrite Hval, Hsp. fold Py.isdecimal_cp.
  repeat split; try assumption.
  intros acc. apply H4.
Qed.

(** What the primitives give on a run of ASCII digits. *)
Lemma ascii_digits_text (s : string) :
  ascii_digits s = true -> s <> "" ->
  Py.isdecimal s = true /\ Py.isdigit s = true /\ no_space s = true /\
  Py.int s = Py.Ok (ascii_value 0 s) /\ Py.starts_cont s = false.
Proof.
  intros Hs Hne.
  destruct (singles_ascii_digits s Hs) as (H1 & H2 & H3 & H4).
  unfold Py.isdecimal, Py.isdigit, no_space, Py.int, Py.isdigit.
  rewrite (chars_ascii_digits s Hs).
  destruct s as [| b r]; [congruence |]. cbn [singles] in *.
  rewrite H1, H2, H3, H4.
  repeat split. cbn [Py.starts_cont]. cbn [ascii_digits] in Hs.
  apply andb_true_iff in Hs as [Hb _]. apply (ascii_digit_char b Hb).
Qed.

Lemma str_digits (n : Z) : 0 <= n -> ascii_digits (Py.str n) = true /\ Py.str n <> "" /\
                                    ascii_value 0 (Py.str n) = n.
Proof.
  intros Hn. unfold Py.str.
  destruct (n <? 0) eqn:Hneg; [apply Z.ltb_lt in Hneg; lia |].
  destruct (digits_spec n Hn) as (H1 & H2 & H3). auto.
Qed.

(** [int(str(n))] is [n] for a natural number. *)
Lemma int_str (n : Z) : 0 <= n -> Py.int (Py.str n) = Py.Ok n.
Proof.
  intros Hn. destruct (str_digits n Hn) as (Hd & Hne & Hv).
  destruct (ascii_digits_text _ Hd Hne) as (_ & _ & _ & -> & _). rewrite Hv. reflexivity.
Qed.

Lemma str_isdigit (n : Z) : 0 <= n -> Py.isdigit (Py.str n) = true.
Proof.
  intros Hn. destruct (str_digits n Hn) as (Hd & Hne & _).
  apply (ascii_digits_text _ Hd Hne).
Qed.

Lemma str_isdecimal (n : Z) : 0 <= n -> Py.isdecimal (Py.str n) = true.
Proof.
  intros Hn. destruct (str_digits n Hn) as (Hd & Hne & _).
  apply (ascii_digits_text _ Hd Hne).
Qed.

Lemma str_starts (n : Z) : 0 <= n -> Py.starts_cont (Py.str n) = false.
Proof.
  intros Hn. destruct (str_digits n Hn) as (Hd & Hne & _).
  apply (ascii_digits_text _ Hd Hne).
Qed.

End Decimal.

(** ** Action tokens *)

Section Tokens.

Lemma strip_prefix_app (p s : string) : strip_prefix p (p +:+ s) = Some s.
Proof.
  induction p as [| a p IH]; [reflexivity |].
  rewrite append_cons. cbn [strip_prefix]. rewrite Ascii.eqb_refl. exact IH.
Qed.

Lemma take_decimal_all (cs : list string) :
  forallb Py.isdecimal_char cs = true -> take_decimal cs = (cs, []).
Proof.
  induction cs as [| c cs IH]; [reflexivity |]. cbn [forallb take_decimal].
  intros [Hc Hcs]%andb_true_iff. rewrite Hc, (IH Hcs). reflexivity.
Qed.

(** The run of digits and the rest make up the characters again, and the
    rest does not start with a decimal digit. *)
Lemma take_decimal_spec (cs : list string) :
  cs = (fst (take_decimal cs) ++ snd (take_decimal cs))%list /\
  forallb Py.isdecimal_char (fst (take_decimal cs)) = true /\
  match snd (take_decimal cs) with
  | [] => True
  | c :: _ => Py.isdecimal_char c = false
  end.
Proof.
  induction cs as [| c cs (IH1 & IH2 & IH3)]; [repeat split; reflexivity |].
  cbn [take_decimal]. destruct (Py.isdecimal_char c) eqn:Hc.
  - destruct (take_decimal cs) as [ds rest]. cbn [fst snd forallb] in *.
    rewrite Hc, IH2. split; [rewrite IH1 at 1; reflexivity | split; [reflexivity | exact IH3]].
  - cbn [fst snd forallb]. split; [reflexivity | split; [reflexivity | exact Hc]].
Qed.

Lemma isdecimal_chars (s : string) :
  Py.isdecimal s = true ->
  Py.chars s <> [] /\ forallb Py.isdecimal_char (Py.chars s) = true.
Proof.
  unfold Py.isdecimal. destruct (Py.chars s); [discriminate |].
  intros H. split; [discriminate | exact H].
Qed.

Lemma isdecimal_isdigit (s : string) : Py.isdecimal s = true -> Py.isdigit s = true.
Proof.
  unfold Py.isdecimal, Py.isdigit. destruct (Py.chars s) as [| c cs]; [discriminate |].
  generalize (c :: cs). intros l. induction l as [| x l IH]; [reflexivity |].
  cbn [forallb]. intros [Hx Hl]%andb_true_iff. rewrite (IH Hl).
  unfold Py.isdigit_char, Py.isdigit_cp. unfold Py.isdecimal_char in Hx.
  rewrite Hx. reflexivity.
Qed.

Lemma int_chars_decimal (cs : list string) (acc : Z) :
  forallb Py.isdecimal_char cs = true -> exists n, Py.int_chars acc cs = Py.Ok n.
Proof.
  revert acc. induction cs as [| c cs IH]; intros acc; [eauto |].
  cbn [forallb Py.int_chars]. intros [Hc Hcs]%andb_true_iff.
  unfold Py.isdecimal_char, Py.isdecimal_cp in Hc.
  destruct (Py.decimal_value (Py.code_point c)); [| discriminate].
  apply (IH _ Hcs).
Qed.

(** [int] reads every run of decimal digits. *)
Lemma isdecimal_int (s : string) : Py.isdecimal s = true -> exists n, Py.int s = Py.Ok n.
Proof.
  intros Hs. unfold Py.int. rewrite (isdecimal_isdigit s Hs).
  apply int_chars_decimal, (isdecimal_chars s Hs).
Qed.

(** A token made of the prefix and a run of decimal digits matches, and
    group 1 is the run. *)
Lemma regex_token_digits (p d : string) :
  Py.isdecimal d = true -> regex_token p (p +:+ d) = Some d.
Proof.
  intros [Hne Hd]%isdecimal_chars. unfold regex_token. rewrite strip_prefix_app.
  rewrite (take_decimal_all _ Hd). destruct (Py.chars d) eqn:Hc; [congruence |].
  rewrite <- Hc, join_chars. reflexivity.
Qed.

(** Group 1 of any match is a run of decimal digits. *)
Lemma regex_token_group (p s g : string) :
  regex_token p s = Some g -> Py.isdecimal g = true.
Proof.
  unfold regex_token. destruct (strip_prefix p s) as [rest |]; [| discriminate].
  destruct (take_decimal_spec (Py.chars rest)) as (Hsplit & Hall & _).
  destruct (take_decimal (Py.chars rest)) as [ds tl]. cbn [fst snd] in *.
  destruct ds as [| c ds]; [discriminate |].
  destruct (_ || _); [| discriminate].
  intros [= <-]. unfold Py.isdecimal.
  rewrite <- join_cons, (chars_join_prefix _ _ _ Hsplit). exact Hall.
Qed.

(** So [int] accepts it. *)
Lemma regex_token_int (p s g : string) :
  regex_token p s = Some g -> exists n, Py.int g = Py.Ok n.
Proof. intros H. apply isdecimal_int, (regex_token_group p s g H). Qed.

Lemma token_show (i : Z) :
  0 <= i -> regex_show ("show_" +:+ Py.str i) = Some (Py.str i).
Proof. intros Hi. apply regex_token_digits, str_isdecimal, Hi. Qed.

Lemma token_del (i : Z) :
  0 <= i -> regex_del ("del_" +:+ Py.str i) = Some (Py.str i).
Proof. intros Hi. apply regex_token_digits, str_isdecimal, Hi. Qed.

Lemma token_del_not_show (s : string) : regex_show ("del_" +:+ s) = None.
Proof. reflexivity. Qed.

End Tokens.

(** ** The handlers perform the store's operations *)

Section HandlersAndStore.

Lemma set_whisper_messages_same (st : State) :
  set_whisper_messages (whisper_messages st) st = st.
Proof. destruct st; reflexivity. Qed.

Lemma show_message_callback_reveal (g : string) (cq : CallbackQuery) (st : State) (n : Z) :
  Py.int g = Py.Ok n ->
  show_message_callback g cq st =
    Py.Ok (st, [CallbackAnswer
                  (SecretStore.reveal_notice
                     (SecretStore.reveal n (id (cq_from_user cq)) (whisper_messages st)))
                  true]).
Proof.
  intros Hg. unfold show_message_callback, SecretStore.reveal. rewrite Hg. simpl.
  destruct (whisper_messages st !! n) as [[[target_id sender_id] message_text] |];
    [| reflexivity].
  destruct (id (cq_from_user cq) =? target_id); reflexivity.
Qed.

Lemma delete_message_callback_delete (g : string) (cq : CallbackQuery) (st : State) (n : Z) :
  Py.int g = Py.Ok n ->
  delete_message_callback g cq st =
    let r := SecretStore.delete n (id (cq_from_user cq)) (whisper_messages st) in
    Py.Ok (set_whisper_messages (snd r) st, SecretStore.delete_calls (fst r)).
Proof.
  intros Hg. unfold delete_message_callback, SecretStore.delete. rewrite Hg. simpl.
  destruct (whisper_messages st !! n) as [[[target_id sender_id] message_text] |].
  - destruct (id (cq_from_user cq) =? sender_id); simpl;
      [reflexivity | rewrite set_whisper_messages_same; reflexivity].
  - simpl. rewrite set_whisper_messages_same. reflexivity.
Qed.

(** Pressing the reveal button of identifier [i]. *)
Lemma press_show (i : Z) (u : User) (st : State) :
  0 <= i ->
  on_callback_query (mkCallbackQuery ("show_" +:+ Py.str i) u) st =
    Some (Py.Ok (st, [CallbackAnswer
                        (SecretStore.reveal_notice
                           (SecretStore.reveal i (id u) (whisper_messages st)))
                        true])).
Proof.
  intros Hi. unfold on_callback_query. cbn [data].
  rewrite (token_show i Hi).
  rewrite (show_message_callback_reveal _ _ _ i (int_str i Hi)). reflexivity.
Qed.

(** Pressing the delete button of identifier [i]. *)
Lemma press_del (i : Z) (u : User) (st : State) :
  0 <= i ->
  on_callback_query (mkCallbackQuery ("del_" +:+ Py.str i) u) st =
    let r := SecretStore.delete i (id u) (whisper_messages st) in
    Some (Py.Ok (set_whisper_messages (snd r) st, SecretStore.delete_calls (fst r))).
Proof.
  intros Hi. unfold on_callback_query. cbn [data].
  rewrite token_del_not_show, (token_del i Hi).
  rewrite (delete_message_callback_delete _ _ _ i (int_str i Hi)). reflexivity.
Qed.

(** A dispatched button press never raises. *)
Lemma on_callback_query_no_raise (cq : CallbackQuery) (st : State) (r : Py.result (State * list Call)) :
  on_callback_query cq st = Some r -> exists out, r = Py.Ok out.
Proof.
  unfold on_callback_query.
  destruct (regex_show (data cq)) as [g |] eqn:Hshow.
  - intros [= <-]. destruct (regex_token_int _ _ _ Hshow) as [n Hint].
    eexists. apply (show_message_callback_reveal _ _ _ n Hint).
  - destruct (regex_del (data cq)) as [g |] eqn:Hdel; [| discriminate].
    intros [= <-]. destruct (regex_token_int _ _ _ Hdel) as [n Hint].
    eexists. apply (delete_message_callback_delete _ _ _ n Hint).
Qed.

End HandlersAndStore.

(** ** The secret store: reveal, register, delete *)

Section SecretStoreProperties.

Import SecretStore.

(** C1. For an entry stored under [i] with recipient [r], a reveal by
    requester [p] gives the stored body when [p = r] and the fixed denial,
    which does not show the body, when [p <> r]; without an entry under
    [i] it gives not-found.  [show_message_callback] answers with the
    matching notice and returns the state it was given. *)
Theorem reveal_access (st : State) (g : string) (i : Z) (cq : CallbackQuery) :
  Py.int g = Py.Ok i ->
  let p := id (cq_from_user cq) in
  let wm := whisper_messages st in
  (forall r s body, wm !! i = Some (r, s, body) ->
     (p = r ->
      reveal i p wm = Body body /\
      show_message_callback g cq st = Py.Ok (st, [CallbackAnswer body true])) /\
     (p <> r ->
      reveal i p wm = RevealDenied /\
      show_message_callback g cq st =
        Py.Ok (st, [CallbackAnswer "This message is not for you." true]))) /\
  (wm !! i = None ->
     reveal i p wm = RevealNotFound /\
     show_message_callback g cq st =
       Py.Ok (st, [CallbackAnswer "This message has expired or does not exist." true])).
Proof.
  intros Hg p wm. subst p wm.
  rewrite (show_message_callback_reveal g cq st i Hg).
  unfold reveal. split.
  - intros r s body ->. split.
    + intros ->. rewrite Z.eqb_refl. split; reflexivity.
    + intros Hne. apply Z.eqb_neq in Hne. rewrite Hne. split; reflexivity.
  - intros ->. split; reflexivity.
Qed.

(** C2, as the code has it.  A registration always returns: the
    identifier is the generator's draw, between 10000000 and 999999999,
    chosen without looking at the store; the entry is stored under it and
    the entries under every other identifier are kept.  When the drawn
    identifier is not pending, no pending entry is lost. *)
Theorem register_stores_under_draw (d r s : Z) (body : string) (wm : gmap Z Whisper) :
  let i := fst (register d r s body wm) in
  let wm' := snd (register d r s body wm) in
  i = generate_message_id d /\
  10000000 <= i <= 999999999 /\
  wm' !! i = Some (r, s, body) /\
  (forall j, j <> i -> wm' !! j = wm !! j) /\
  (wm !! i = None -> wm ⊆ wm').
Proof.
  cbn [register fst snd]. split; [reflexivity |]. split.
  - unfold generate_message_id, Py.randint.
    pose proof (Z.mod_pos_bound d (999999999 - 10000000 + 1) ltac:(lia)). lia.
  - split; [apply lookup_insert_eq |]. split.
    + intros j Hj. apply lookup_insert_ne. congruence.
    + intros Hfresh. apply insert_subseteq, Hfresh.
Qed.



Lemma show_message_callback_state (g : string) (cq : CallbackQuery) (st st' : State)
    (calls : list Call) :
  show_message_callback g cq st = Py.Ok (st', calls) -> st' = st.
Proof.
  unfold show_message_callback. destruct (Py.int g) as [n | e]; [| discriminate].
  simpl.
  destruct (whisper_messages st !! n) as [[[target_id sender_id] message_text] |].
  - destruct (id (cq_from_user cq) =? target_id); intros [= <- _]; reflexivity.
  - intros [= <- _]; reflexivity.
Qed.

(** C6. A reveal does not change the state, whoever asks and whatever is
    stored; [n] reveals in a row by the recipient of a pending entry give
    the stored body [n] times, unchanged, and leave the state as it was. *)
Theorem reveal_never_mutates (st : State) (g : string) (i : Z) (cq : CallbackQuery) :
  Py.int g = Py.Ok i ->
  (exists notice, show_message_callback g cq st = Py.Ok (st, [CallbackAnswer notice true])) /\
  (forall s body (n : nat),
     whisper_messages st !! i = Some (id (cq_from_user cq), s, body) ->
     show_times n g cq st = Py.Ok (st, replicate n (CallbackAnswer body true))).
Proof.
  intros Hg. split.
  - eexists. apply (show_message_callback_reveal g cq st i Hg).
  - intros s body n Hin. induction n as [| n IH]; [reflexivity |].
    cbn [show_times].
    rewrite (show_message_callback_reveal g cq st i Hg).
    unfold reveal. rewrite Hin, Z.eqb_refl. cbn.
    rewrite IH. reflexivity.
Qed.

End SecretStoreProperties.

(** ** The user directory *)

Section UserDirectory.

Lemma find_one_user_id_Some (n : Z) (users : list UserDoc) (d : UserDoc) :
  find_one_user_id n users = Some d -> d ∈ users /\ doc_user_id d = n.
Proof.
  unfold find_one_user_id. intros H. apply find_some in H as [Hin Heq].
  split; [apply list_elem_of_In, Hin | apply Z.eqb_eq, Heq].
Qed.

(** With one document per identifier, the lookup by identifier finds the
    document that carries it. *)
Lemma find_one_user_id_unique (users : list UserDoc) (d : UserDoc) :
  NoDup (doc_user_id <$> users) -> d ∈ users ->
  find_one_user_id (doc_user_id d) users = Some d.
Proof.
  unfold find_one_user_id.
  induction users as [| x xs IH]; intros Hnd Hin; [by apply elem_of_nil in Hin |].
  rewrite fmap_cons in Hnd. apply NoDup_cons in Hnd as [Hx Hnd].
  cbn [find]. apply elem_of_cons in Hin as [-> | Hin].
  - rewrite Z.eqb_refl. reflexivity.
  - destruct (doc_user_id x =? doc_user_id d) eqn:Heq.
    + apply Z.eqb_eq in Heq. exfalso. apply Hx. rewrite Heq.
      apply list_elem_of_fmap. exists d. split; [reflexivity | exact Hin].
    + apply IH; assumption.
Qed.

Lemma find_one_username_Some (h : string) (users : list UserDoc) (d : UserDoc) :
  find_one_username h users = Some d -> d ∈ users /\ doc_username d = Some h.
Proof.
  unfold find_one_username. intros H. apply find_some in H as [Hin Heq].
  split; [apply list_elem_of_In, Hin |].
  destruct (doc_username d) as [u |]; [| discriminate].
  apply String.eqb_eq in Heq. congruence.
Qed.

Lemma find_one_username_elem (h : string) (users : list UserDoc) (d : UserDoc) :
  d ∈ users -> doc_username d = Some h ->
  exists d', find_one_username h users = Some d'.
Proof.
  intros Hin Hname. unfold find_one_username.
  destruct (find _ users) as [d' |] eqn:Hfind; [eauto |].
  apply list_elem_of_In in Hin.
  pose proof (find_none _ _ Hfind d Hin) as Hno. cbn beta in Hno.
  rewrite Hname, String.eqb_refl in Hno. discriminate.
Qed.

(** What [get_user_info] returns, case by case; it never raises. *)
Lemma get_user_info_value (s : string) (users : list UserDoc) :
  get_user_info s users =
    Py.Ok (if Py.isdigit s then
             match Py.int s with
             | Py.Ok n => find_one_user_id n users
             | Py.Raise _ => None
             end
           else find_one_username
                  (if Py.startswith_char "@" s then Py.tail s else s) users).
Proof.
  unfold get_user_info. destruct (Py.isdigit s); [| reflexivity].
  destruct (Py.int s); reflexivity.
Qed.

Lemma int_isdigit (s : string) (n : Z) : Py.int s = Py.Ok n -> Py.isdigit s = true.
Proof. unfold Py.int. destruct (Py.isdigit s); [reflexivity | discriminate]. Qed.

(** A text that starts with the marker is not a run of digits. *)
Lemma isdigit_marker (h : string) : Py.isdigit (String "@" h) = false.
Proof.
  assert (Hhead : forall c, Py.isdigit_char (String "@" c) = false).
  { intros [| b1 [| b2 [| b3 [| b4 c]]]]; reflexivity. }
  unfold Py.isdigit. rewrite chars_cons.
  destruct (Py.chars h) as [| c cs]; [cbn [forallb]; rewrite Hhead; reflexivity |].
  destruct (Py.starts_cont c); cbn [forallb]; rewrite Hhead; reflexivity.
Qed.

(** C7, as the code has it.  The input is first tested for being a run of
    digits: if it is, it is read as an identifier and looked up by
    [user_id], and digits [int] cannot read find nothing; otherwise one
    leading ['@'] is removed and the rest is looked up by [username].  So
    the text of a stored identifier gives its document, a handle gives the
    same answer with and without the marker, digits behind the marker are
    looked up as a handle, and an input nothing matches gives [None]; no
    input makes the function raise. *)
Theorem get_user_info_resolve (users : list UserDoc) :
  (forall s, exists o, get_user_info s users = Py.Ok o) /\
  (forall n d, 0 <= n -> NoDup (doc_user_id <$> users) -> d ∈ users ->
     doc_user_id d = n -> get_user_info (Py.str n) users = Py.Ok (Some d)) /\
  (forall h, Py.isdigit h = false -> Py.startswith_char "@" h = false ->
     get_user_info (String "@" h) users = get_user_info h users /\
     get_user_info h users = Py.Ok (find_one_username h users) /\
     (forall d, d ∈ users -> doc_username d = Some h ->
        exists d', get_user_info h users = Py.Ok (Some d') /\
                   doc_username d' = Some h)) /\
  (forall ds, Py.isdigit ds = true ->
     get_user_info ds users =
       Py.Ok (match Py.int ds with
              | Py.Ok n => find_one_user_id n users
              | Py.Raise _ => None
              end) /\
     get_user_info (String "@" ds) users = Py.Ok (find_one_username ds users)) /\
  (forall s, Py.isdigit s = true ->
     (forall n d, Py.int s = Py.Ok n -> d ∈ users -> doc_user_id d <> n) ->
     get_user_info s users = Py.Ok None) /\
  (forall s, Py.isdigit s = false ->
     (forall d, d ∈ users ->
        doc_username d <> Some (if Py.startswith_char "@" s then Py.tail s else s)) ->
     get_user_info s users = Py.Ok None).
Proof.
  split; [intros s; eexists; apply get_user_info_value |].
  split.
  { intros n d Hn Hnd Hin Hid. rewrite get_user_info_value.
    rewrite (str_isdigit n Hn), (int_str n Hn).
    rewrite <- Hid at 1. rewrite (find_one_user_id_unique users d Hnd Hin).
    reflexivity. }
  split.
  { intros h Hdig Hat. rewrite !get_user_info_value.
    rewrite Hdig, Hat, isdigit_marker. cbn [Py.startswith_char Py.tail].
    rewrite Ascii.eqb_refl.
    split; [reflexivity |]. split; [reflexivity |].
    intros d Hin Hname.
    destruct (find_one_username_elem h users d Hin Hname) as [d' Hd'].
    exists d'. rewrite Hd'. split; [reflexivity |].
    apply (find_one_username_Some h users d' Hd'). }
  split.
  { intros ds Hdig. rewrite !get_user_info_value. rewrite Hdig, isdigit_marker.
    split; reflexivity. }
  split.
  { intros s Hdig Hno. rewrite get_user_info_value, Hdig.
    destruct (Py.int s) as [n | e]; [| reflexivity].
    destruct (find_one_user_id n users) as [d |] eqn:Hfind; [| reflexivity].
    apply find_one_user_id_Some in Hfind as [Hin Hid].
    exfalso. exact (Hno n d eq_refl Hin Hid). }
  intros s Hdig Hno. rewrite get_user_info_value, Hdig.
  destruct (find_one_username _ users) as [d |] eqn:Hfind; [| reflexivity].
  apply find_one_username_Some in Hfind as [Hin Hname].
  exfalso. exact (Hno d Hin Hname).
Qed.

End UserDirectory.

(** ** Recording a profile *)

Section Upsert.

Lemma set_fields_twice (user_data doc : UserDoc) :
  set_fields user_data (set_fields user_data doc) = set_fields user_data doc.
Proof.
  unfold set_fields. cbn. destruct (doc_username user_data); reflexivity.
Qed.

Lemma set_fields_self (user_data : UserDoc) : set_fields user_data user_data = user_data.
Proof. destruct user_data as [a b c d [u |]]; reflexivity. Qed.

Lemma update_one_upsert_twice (user_data : UserDoc) (users : list UserDoc) :
  let uid := doc_user_id user_data in
  update_one_upsert uid user_data (update_one_upsert uid user_data users)
  = update_one_upsert uid user_data users.
Proof.
  cbn zeta. induction users as [| d ds IH]; cbn [update_one_upsert].
  - rewrite Z.eqb_refl, set_fields_self. reflexivity.
  - destruct (doc_user_id d =? doc_user_id user_data) eqn:Heq;
      cbn [update_one_upsert].
    + cbn [set_fields doc_user_id]. rewrite Z.eqb_refl, set_fields_twice.
      reflexivity.
    + rewrite Heq, IH. reflexivity.
Qed.

(** A second update with the same identifier and the same handle key
    overrides the first. *)
Lemma update_one_upsert_again (ud1 ud2 : UserDoc) (users : list UserDoc) :
  doc_user_id ud1 = doc_user_id ud2 ->
  doc_username ud1 = doc_username ud2 ->
  update_one_upsert (doc_user_id ud2) ud2
    (update_one_upsert (doc_user_id ud1) ud1 users)
  = update_one_upsert (doc_user_id ud2) ud2 users.
Proof.
  intros Hid Hname.
  assert (Hset : forall d, set_fields ud2 (set_fields ud1 d) = set_fields ud2 d).
  { intros d. unfold set_fields. cbn. rewrite Hname.
    destruct (doc_username ud2); reflexivity. }
  assert (Hself : set_fields ud2 ud1 = ud2).
  { unfold set_fields. rewrite Hname. destruct ud2 as [a b c d [u |]]; reflexivity. }
  rewrite Hid.
  induction users as [| d ds IH]; cbn [update_one_upsert].
  - rewrite Hid, Z.eqb_refl, Hself. reflexivity.
  - destruct (doc_user_id d =? doc_user_id ud2) eqn:Heq; cbn [update_one_upsert].
    + cbn [set_fields doc_user_id]. rewrite Hid, Z.eqb_refl, Hset. reflexivity.
    + rewrite Heq, IH. reflexivity.
Qed.

(** The document found under the identifier after the update. *)
Lemma update_one_upsert_find (user_data : UserDoc) (users : list UserDoc) :
  let uid := doc_user_id user_data in
  find_one_user_id uid (update_one_upsert uid user_data users) =
    Some (match find_one_user_id uid users with
          | Some old => set_fields user_data old
          | None => user_data
          end).
Proof.
  cbn zeta. unfold find_one_user_id.
  induction users as [| d ds IH]; cbn [update_one_upsert find].
  - rewrite Z.eqb_refl. reflexivity.
  - destruct (doc_user_id d =? doc_user_id user_data) eqn:Heq; cbn [find].
    + cbn [set_fields doc_user_id]. rewrite Z.eqb_refl. reflexivity.
    + rewrite Heq. exact IH.
Qed.

(** Documents under other identifiers are found as before. *)
Lemma update_one_upsert_find_other (user_data : UserDoc) (users : list UserDoc) (n : Z) :
  n <> doc_user_id user_data ->
  find_one_user_id n (update_one_upsert (doc_user_id user_data) user_data users)
  = find_one_user_id n users.
Proof.
  intros Hne. unfold find_one_user_id.
  induction users as [| d ds IH]; cbn [update_one_upsert find].
  - destruct (doc_user_id user_data =? n) eqn:Heq; [| reflexivity].
    apply Z.eqb_eq in Heq. congruence.
  - destruct (doc_user_id d =? doc_user_id user_data) eqn:Heq; cbn [find].
    + apply Z.eqb_eq in Heq. cbn [set_fields doc_user_id].
      destruct (doc_user_id user_data =? n) eqn:Hn;
        [apply Z.eqb_eq in Hn; congruence |].
      rewrite Heq, Hn. reflexivity.
    + rewrite IH. reflexivity.
Qed.

(** The update keeps one document per identifier. *)
Lemma update_one_upsert_ids (user_data : UserDoc) (users : list UserDoc) :
  let uid := doc_user_id user_data in
  doc_user_id <$> update_one_upsert uid user_data users =
    if decide (uid ∈ doc_user_id <$> users) then doc_user_id <$> users
    else ((doc_user_id <$> users) ++ [uid])%list.
Proof.
  cbn zeta. induction users as [| d ds IH]; cbn [update_one_upsert].
  - rewrite decide_False by apply not_elem_of_nil. reflexivity.
  - rewrite !fmap_cons.
    destruct (doc_user_id d =? doc_user_id user_data) eqn:Heq.
    + apply Z.eqb_eq in Heq. rewrite fmap_cons. cbn [set_fields doc_user_id].
      rewrite decide_True by (rewrite Heq; apply elem_of_cons; left; reflexivity).
      rewrite Heq. reflexivity.
    + apply Z.eqb_neq in Heq. rewrite fmap_cons, IH.
      destruct (decide (doc_user_id user_data ∈ doc_user_id <$> ds)) as [Hin | Hnin].
      * rewrite decide_True by (apply elem_of_cons; right; exact Hin). reflexivity.
      * rewrite decide_False; [reflexivity |].
        intros [Hhd | Htl]%elem_of_cons; [congruence | exact (Hnin Htl)].
Qed.

Lemma update_one_upsert_NoDup (user_data : UserDoc) (users : list UserDoc) :
  NoDup (doc_user_id <$> users) ->
  NoDup (doc_user_id <$> update_one_upsert (doc_user_id user_data) user_data users).
Proof.
  intros Hnd. rewrite update_one_upsert_ids.
  destruct (decide _) as [Hin | Hnin]; [exact Hnd |].
  apply NoDup_app. split; [exact Hnd |]. split.
  - intros x Hx [-> | Hnil%elem_of_nil]%elem_of_cons; [exact (Hnin Hx) | exact Hnil].
  - apply NoDup_singleton.
Qed.

Lemma store_user_info_whispers (now : nat -> Z) (user : User) (st : State) :
  whisper_messages (store_user_info now user st) = whisper_messages st.
Proof.
  unfold store_user_info. destruct (username user) as [[| c u] |]; reflexivity.
Qed.

Lemma store_user_info_users (now : nat -> Z) (user : User) (st : State) :
  users_collection (store_user_info now user st) =
    update_one_upsert (id user)
      {| doc_user_id := id user;
         doc_first_name := first_name user;
         doc_last_name := last_name user;
         doc_last_seen := now 0%nat;
         doc_username := if truthy (username user) then username user else None |}
      (users_collection st).
Proof.
  unfold store_user_info. destruct (username user) as [[| c u] |]; reflexivity.
Qed.

(** C8, as the code has it.  Recording a profile is idempotent and keyed
    by identifier: recording the same user at the same clock readings a
    second time changes nothing.  Afterwards the document found under the
    user's identifier carries the user's identifier, names and the time of
    recording; its handle is the user's when the user has one, and
    otherwise the handle stored before, if any, is kept.  Documents under
    other identifiers are found as before, and the identifiers stay
    distinct.  Recording the user again at a later time leaves the
    collection as one recording at that time does. *)
Theorem store_user_info_upsert (now : nat -> Z) (user : User) (st : State) :
  let st1 := store_user_info now user st in
  let before := find_one_user_id (id user) (users_collection st) in
  store_user_info now user st1 = st1 /\
  (exists d,
     find_one_user_id (id user) (users_collection st1) = Some d /\
     doc_user_id d = id user /\
     doc_first_name d = first_name user /\
     doc_last_name d = last_name user /\
     doc_last_seen d = now 0%nat /\
     doc_username d =
       if truthy (username user) then username user
       else match before with
            | Some old => doc_username old
            | None => None
            end) /\
  (forall n, n <> id user ->
     find_one_user_id n (users_collection st1)
     = find_one_user_id n (users_collection st)) /\
  (NoDup (doc_user_id <$> users_collection st) ->
   NoDup (doc_user_id <$> users_collection st1)) /\
  (forall later : nat -> Z,
     users_collection (store_user_info later user st1)
     = users_collection (store_user_info later user st)).
Proof.
  cbn zeta. split; [| split; [| split; [| split]]].
  - unfold store_user_info at 1.
    rewrite store_user_info_users.
    set (ud := {| doc_user_id := id user |}).
    pose proof (update_one_upsert_twice ud (users_collection st)) as Htwice.
    cbn zeta in Htwice. change (doc_user_id ud) with (id user) in Htwice.
    rewrite Htwice.
    unfold store_user_info. fold ud.
    destruct (username user) as [[| c u] |]; cbn; try reflexivity.
    rewrite !insert_insert_eq. reflexivity.
  - rewrite store_user_info_users.
    set (ud := {| doc_user_id := id user |}).
    pose proof (update_one_upsert_find ud (users_collection st)) as Hfind.
    cbn zeta in Hfind. change (doc_user_id ud) with (id user) in Hfind.
    rewrite Hfind. eexists. split; [reflexivity |].
    destruct (find_one_user_id (id user) (users_collection st)) as [old |];
      subst ud; cbn; repeat (split; [reflexivity |]);
      destruct (truthy (username user)) eqn:Ht; try reflexivity.
    destruct (username user) as [[| c u] |]; [discriminate | reflexivity | discriminate].
  - intros n Hn. rewrite store_user_info_users.
    set (ud := {| doc_user_id := id user |}).
    apply (update_one_upsert_find_other ud (users_collection st) n). exact Hn.
  - intros Hnd. rewrite store_user_info_users.
    set (ud := {| doc_user_id := id user |}).
    apply (update_one_upsert_NoDup ud (users_collection st) Hnd).
  - intros later. rewrite !store_user_info_users.
    set (ud1 := {| doc_user_id := id user; doc_last_seen := now 0%nat |}).
    set (ud2 := {| doc_user_id := id user; doc_last_seen := later 0%nat |}).
    apply (update_one_upsert_again ud1 ud2 (users_collection st)); reflexivity.
Qed.

End Upsert.

(** ** Splitting a query *)

Section Split.

Lemma drop_space_suffix (cs : list string) :
  exists pre, cs = (pre ++ Py.drop_space cs)%list /\ forallb Py.isspace_char pre = true.
Proof.
  induction cs as [| c cs (pre & Hpre & Hsp)]; [exists []; split; reflexivity |].
  cbn [Py.drop_space]. destruct (Py.isspace_char c) eqn:Hc.
  - exists (c :: pre). cbn [forallb]. rewrite Hc, Hsp, <- app_comm_cons, <- Hpre.
    split; reflexivity.
  - exists []. split; reflexivity.
Qed.

Lemma drop_space_head (cs : list string) :
  match Py.drop_space cs with
  | c :: _ => Py.isspace_char c = false
  | [] => True
  end.
Proof.
  induction cs as [| c cs IH]; [exact I |]. cbn [Py.drop_space].
  destruct (Py.isspace_char c) eqn:Hc; [exact IH | exact Hc].
Qed.

Lemma drop_space_word (c : string) (cs : list string) :
  Py.isspace_char c = false -> Py.drop_space (c :: cs) = c :: cs.
Proof. intros Hc. cbn [Py.drop_space]. rewrite Hc. reflexivity. Qed.

Lemma drop_space_idem (cs : list string) :
  Py.drop_space (Py.drop_space cs) = Py.drop_space cs.
Proof.
  pose proof (drop_space_head cs) as Hhead.
  destruct (Py.drop_space cs) as [| c r]; [reflexivity |].
  apply drop_space_word, Hhead.
Qed.

Lemma drop_space_spaces (sp cs : list string) :
  forallb Py.isspace_char sp = true -> Py.drop_space (sp ++ cs) = Py.drop_space cs.
Proof.
  induction sp as [| c sp IH]; [reflexivity |]. cbn [forallb].
  intros [Hc Hsp]%andb_true_iff. rewrite <- app_comm_cons. cbn [Py.drop_space].
  rewrite Hc. apply IH, Hsp.
Qed.

(** The word and the rest make up the characters again; the word has no
    whitespace and the rest starts with one. *)
Lemma take_word_spec (cs : list string) :
  cs = (fst (Py.take_word cs) ++ snd (Py.take_word cs))%list /\
  forallb (fun c => negb (Py.isspace_char c)) (fst (Py.take_word cs)) = true /\
  match snd (Py.take_word cs) with
  | c :: _ => Py.isspace_char c = true
  | [] => True
  end.
Proof.
  induction cs as [| c cs (IH1 & IH2 & IH3)]; [repeat split; reflexivity |].
  cbn [Py.take_word]. destruct (Py.isspace_char c) eqn:Hc.
  - cbn [fst snd forallb]. split; [reflexivity | split; [reflexivity | exact Hc]].
  - destruct (Py.take_word cs) as [w rest]. cbn [fst snd forallb] in *.
    rewrite Hc, IH2. split; [rewrite IH1 at 1; reflexivity | split; [reflexivity | exact IH3]].
Qed.

Lemma take_word_app (w cs : list string) :
  forallb (fun c => negb (Py.isspace_char c)) w = true ->
  match cs with
  | c :: _ => Py.isspace_char c = true
  | [] => True
  end ->
  Py.take_word (w ++ cs) = (w, cs).
Proof.
  intros Hw Hcs. induction w as [| c w IH].
  - destruct cs as [| c cs]; [reflexivity |]. cbn [app Py.take_word].
    rewrite Hcs. reflexivity.
  - cbn [forallb] in Hw. apply andb_true_iff in Hw as [Hc Hw].
    apply negb_true_iff in Hc. rewrite <- app_comm_cons. cbn [Py.take_word].
    rewrite Hc, (IH Hw). reflexivity.
Qed.

Lemma chars_skip_space (s : string) :
  Py.chars (Py.skip_space s) = Py.drop_space (Py.chars s).
Proof.
  unfold Py.skip_space. destruct (drop_space_suffix (Py.chars s)) as (pre & Hpre & _).
  apply (chars_join_suffix pre _ s Hpre).
Qed.

Lemma skip_space_idem (s : string) : Py.skip_space (Py.skip_space s) = Py.skip_space s.
Proof.
  unfold Py.skip_space at 1. rewrite chars_skip_space, drop_space_idem. reflexivity.
Qed.

Lemma join_nonempty (c : string) (cs : list string) :
  c <> "" -> Py.join (c :: cs) <> "".
Proof. intros Hc. rewrite join_cons. destruct c; [congruence | discriminate]. Qed.

(** The result has at most two items, and a second item is not empty and
    does not start with whitespace. *)
Lemma split_maxsplit1_shape (s : string) :
  Py.split_maxsplit1 s = [] \/
  (exists w, Py.split_maxsplit1 s = [w]) \/
  (exists w r, Py.split_maxsplit1 s = [w; r] /\ r <> "" /\ Py.skip_space r = r).
Proof.
  unfold Py.split_maxsplit1.
  destruct (Py.skip_space s) as [| c s1]; [left; reflexivity | right].
  destruct (Py.span_word (String c s1)) as [w r].
  destruct (Py.skip_space r) as [| c' r1] eqn:Hr; [left; eauto | right].
  exists w, (String c' r1). split; [reflexivity |]. split; [discriminate |].
  rewrite <- Hr. apply skip_space_idem.
Qed.

(** A text that is not empty and does not start with whitespace has a
    first word. *)
Lemma split_maxsplit1_first (s : string) :
  s <> "" -> Py.skip_space s = s ->
  (exists w, Py.split_maxsplit1 s = [w]) \/
  (exists w r, Py.split_maxsplit1 s = [w; r] /\ r <> "").
Proof.
  intros Hne Hskip.
  destruct (split_maxsplit1_shape s) as [Hnil | [Hone | (w & r & Heq & Hr & _)]];
    [| left; exact Hone | right; eauto].
  exfalso. unfold Py.split_maxsplit1 in Hnil. rewrite Hskip in Hnil.
  destruct s as [| c s]; [congruence |].
  destruct (Py.span_word (String c s)) as [w r].
  destruct (Py.skip_space r); discriminate.
Qed.

(** The split, on the characters. *)
Lemma split_maxsplit1_chars (s : string) :
  Py.split_maxsplit1 s =
    match Py.drop_space (Py.chars s) with
    | [] => []
    | cs1 =>
        match Py.drop_space (snd (Py.take_word cs1)) with
        | [] => [Py.join (fst (Py.take_word cs1))]
        | r1 => [Py.join (fst (Py.take_word cs1)); Py.join r1]
        end
    end.
Proof.
  unfold Py.split_maxsplit1.
  destruct (drop_space_suffix (Py.chars s)) as (pre & Hpre & _).
  pose proof (chars_skip_space s) as Hcs. unfold Py.skip_space at 1.
  unfold Py.skip_space at 1 in Hcs.
  pose proof (chars_nonempty s) as Hne. rewrite Hpre in Hne.
  apply Forall_app in Hne as [_ Hne].
  destruct (Py.drop_space (Py.chars s)) as [| c cs1] eqn:Hdrop; [reflexivity |].
  apply Forall_cons in Hne as [Hc Hne1].
  pose proof (join_nonempty c cs1 Hc) as Hjoin.
  destruct (Py.join (c :: cs1)) as [| a x] eqn:Hj; [congruence |]. rewrite <- Hj.
  unfold Py.span_word. rewrite Hj, Hcs.
  destruct (take_word_spec (c :: cs1)) as (Hsplit & _ & _).
  destruct (Py.take_word (c :: cs1)) as [w r]. cbn [fst snd] in *.
  assert (Hr : Py.chars (Py.join r) = r).
  { apply (chars_join_suffix (pre ++ w) r s). rewrite <- app_assoc, <- Hsplit. exact Hpre. }
  unfold Py.skip_space. rewrite Hr.
  destruct (drop_space_suffix r) as (pre2 & Hpre2 & _).
  assert (Hne2 : Forall (fun c => c <> "") (Py.drop_space r)).
  { assert (Hall : Forall (fun c => c <> "") (c :: cs1)) by (constructor; assumption).
    rewrite Hsplit in Hall. apply Forall_app in Hall as [_ Hall].
    rewrite Hpre2 in Hall. apply Forall_app in Hall. apply Hall. }
  destruct (Py.drop_space r) as [| c2 r2]; [reflexivity |].
  apply Forall_cons in Hne2 as [Hc2 _].
  pose proof (join_nonempty c2 r2 Hc2) as Hjoin2.
  destruct (Py.join (c2 :: r2)) as [| a2 x2] eqn:Hj2; [congruence |]. reflexivity.
Qed.

(** A whitespace character starts at a byte that is not a continuation
    byte. *)
Lemma space_char_boundary (c : string) :
  Py.isspace_char c = true -> Py.starts_cont c = false.
Proof.
  intros Hsp. destruct (Py.starts_cont c) eqn:Hcont; [exfalso | reflexivity].
  destruct c as [| b0 r]; [discriminate |]. cbn [Py.starts_cont] in Hcont.
  unfold Py.is_cont in Hcont. apply andb_true_iff in Hcont as [Hlo Hhi].
  apply Z.leb_le in Hlo. apply Z.ltb_lt in Hhi.
  assert (H1 : (Py.byte b0 <? 128) = false) by (apply Z.ltb_ge; lia).
  assert (H2 : (194 <=? Py.byte b0) = false) by (apply Z.leb_gt; lia).
  assert (H3 : (224 <=? Py.byte b0) = false) by (apply Z.leb_gt; lia).
  assert (H4 : (240 <=? Py.byte b0) = false) by (apply Z.leb_gt; lia).
  assert (Hcp : Py.code_point (String b0 r) = -1).
  { destruct r as [| b1 [| b2 [| b3 [| b4 r]]]]; cbn [Py.code_point];
      rewrite ?H1, ?H2, ?H3, ?H4; reflexivity. }
  unfold Py.isspace_char in Hsp. rewrite Hcp in Hsp. discriminate Hsp.
Qed.

Lemma is_word_chars (w : string) :
  is_word w = true ->
  exists c cs, Py.chars w = c :: cs /\ Py.isspace_char c = false /\
    forallb (fun c => negb (Py.isspace_char c)) (c :: cs) = true.
Proof.
  unfold is_word, no_space. destruct w as [| b r]; [discriminate |].
  destruct (Py.chars (String b r)) as [| c cs] eqn:Hc.
  { apply chars_nil in Hc. discriminate. }
  intros Hall. exists c, cs. split; [reflexivity |]. split; [| exact Hall].
  cbn [forallb] in Hall. apply andb_true_iff in Hall as [Hc1 _].
  apply negb_true_iff, Hc1.
Qed.

Lemma isspace_chars (sep : string) :
  Py.isspace sep = true ->
  exists c cs, Py.chars sep = c :: cs /\ Py.isspace_char c = true /\
    forallb Py.isspace_char (c :: cs) = true /\ Py.starts_cont sep = false /\ sep <> "".
Proof.
  unfold Py.isspace. destruct (Py.chars sep) as [| c cs] eqn:Hc; [discriminate |].
  intros Hall. exists c, cs. split; [reflexivity |].
  assert (Hc1 : Py.isspace_char c = true).
  { cbn [forallb] in Hall. apply andb_true_iff in Hall. apply Hall. }
  split; [exact Hc1 |]. split; [exact Hall |].
  destruct (chars_head sep c cs Hc) as [Hstart _].
  split; [rewrite <- Hstart; apply space_char_boundary, Hc1 |].
  intros ->. discriminate Hc.
Qed.

(** A word, whitespace and a rest split into the word and the rest
    without its leading whitespace. *)
Lemma split_word_rest (w sep r : string) :
  is_word w = true -> Py.isspace sep = true -> Py.starts_cont r = false ->
  Py.split_maxsplit1 (w +:+ sep +:+ r) =
    match Py.drop_space (Py.chars r) with
    | [] => [w]
    | r1 => [w; Py.join r1]
    end.
Proof.
  intros Hw Hsep Hr.
  destruct (is_word_chars w Hw) as (c & cs & Hcw & Hc & Hall).
  destruct (isspace_chars sep Hsep) as (x & xs & Hcsep & Hx & Hxall & Hsb & Hsne).
  assert (Hchars : Py.chars (w +:+ sep +:+ r)
                   = (Py.chars w ++ Py.chars sep ++ Py.chars r)%list).
  { rewrite chars_app, chars_app; [reflexivity | exact Hr |].
    rewrite starts_cont_app. destruct sep; [congruence | exact Hsb]. }
  rewrite split_maxsplit1_chars, Hchars, Hcw.
  rewrite <- app_comm_cons, (drop_space_word c _ Hc). cbv zeta.
  rewrite app_comm_cons, take_word_app; [| exact Hall | rewrite Hcsep; exact Hx].
  cbn [fst snd]. rewrite (drop_space_spaces _ _ (eq_ind_r (fun l => forallb _ l = true) Hxall Hcsep)).
  rewrite <- Hcw, join_chars. reflexivity.
Qed.


(** The shape of [command target body]: the body is what follows the
    whitespace after the target. *)
Lemma compose_form_words (cmd sep1 target sep2 body : string) :
  is_word cmd = true -> Py.isspace sep1 = true ->
  is_word target = true -> Py.starts_cont target = false ->
  Py.isspace sep2 = true -> Py.starts_cont body = false ->
  compose_form (cmd +:+ sep1 +:+ target +:+ sep2 +:+ body) =
    match Py.drop_space (Py.chars body) with
    | [] => TargetOnly target
    | b1 => TargetBody target (Py.join b1)
    end.
Proof.
  intros Hcmd Hs1 Ht Htb Hs2 Hb. unfold compose_form.
  destruct (is_word_chars target Ht) as (c & cs & Hct & Hc & Hall).
  assert (Hrest : Py.starts_cont (target +:+ sep2 +:+ body) = false).
  { rewrite starts_cont_app. destruct target; [discriminate | exact Htb]. }
  assert (Hchars : Py.chars (target +:+ sep2 +:+ body)
                   = (c :: cs ++ Py.chars (sep2 +:+ body))%list).
  { rewrite chars_app, Hct; [reflexivity |].
    destruct (isspace_chars sep2 Hs2) as (_ & _ & _ & _ & _ & Hsb & Hsne).
    rewrite starts_cont_app. destruct sep2; [congruence | exact Hsb]. }
  rewrite (split_word_rest cmd sep1 _ Hcmd Hs1 Hrest).
  rewrite Hchars, (drop_space_word c _ Hc), <- Hchars, join_chars.
  rewrite (split_word_rest target sep2 body Ht Hs2 Hb).
  destruct (Py.drop_space (Py.chars body)); reflexivity.
Qed.

(** The same, with the body as [skip_space] gives it. *)
Lemma compose_form_body (cmd sep1 target sep2 body : string) :
  is_word cmd = true -> Py.isspace sep1 = true ->
  is_word target = true -> Py.starts_cont target = false ->
  Py.isspace sep2 = true -> Py.starts_cont body = false ->
  Py.skip_space body <> "" ->
  compose_form (cmd +:+ sep1 +:+ target +:+ sep2 +:+ body)
  = TargetBody target (Py.skip_space body).
Proof.
  intros Hcmd Hs1 Ht Htb Hs2 Hb Hbody.
  rewrite (compose_form_words cmd sep1 target sep2 body Hcmd Hs1 Ht Htb Hs2 Hb).
  unfold Py.skip_space in *.
  destruct (Py.drop_space (Py.chars body)); [exfalso; apply Hbody; reflexivity |].
  reflexivity.
Qed.



End Split.

(** ** The compose handler *)

Section Compose.

Lemma bind_Ok {A B : Type} (a : A) (k : A -> Py.result B) : Py.Ok a ≫= k = k a.
Proof. reflexivity. Qed.

Lemma index_first {A : Type} (x : A) (xs : list A) : Py.index (x :: xs) 0 = Py.Ok x.
Proof. reflexivity. Qed.

Lemma index_second {A : Type} (x y : A) (xs : list A) :
  Py.index (x :: y :: xs) 1 = Py.Ok y.
Proof. reflexivity. Qed.


End Compose.

(** ** Identifiers and their tokens *)

Section Identifiers.

Lemma generate_message_id_range (d : Z) :
  10000000 <= generate_message_id d <= 999999999.
Proof.
  unfold generate_message_id, Py.randint.
  pose proof (Z.mod_pos_bound d (999999999 - 10000000 + 1) ltac:(lia)). lia.
Qed.

(** C10. Every identifier the generator gives lies between 10000000 and
    999999999, and for every identifier [i] in that range the tokens
    [show_<i>] and [del_<i>] match the filters of the two callbacks, with
    the digits of [i] as group 1, and [int] of those digits is [i]. *)
Theorem identifier_token_roundtrip :
  (forall d, 10000000 <= generate_message_id d <= 999999999) /\
  (forall i, 10000000 <= i <= 999999999 ->
     regex_show ("show_" +:+ Py.str i) = Some (Py.str i) /\
     regex_del ("del_" +:+ Py.str i) = Some (Py.str i) /\
     Py.int (Py.str i) = Py.Ok i).
Proof.
  split; [exact generate_message_id_range |].
  intros i Hi. split; [apply token_show; lia |].
  split; [apply token_del; lia | apply int_str; lia].
Qed.

End Identifiers.

(** ** Concrete runs *)

Section Runs.

Import SecretStore.

Example split_runs :
  Py.split_maxsplit1 "wspr @bob  hello  world " = ["wspr"; "@bob  hello  world "] /\
  Py.split_maxsplit1 "  wspr   " = ["wspr"] /\
  Py.split_maxsplit1 "" = [].
Proof. repeat split; reflexivity. Qed.

Example compose_form_runs :
  compose_form "wspr" = NoTarget /\
  compose_form "wspr   " = NoTarget /\
  compose_form "wspr @bob" = TargetOnly "@bob" /\
  compose_form "wspr @bob hello  world" = TargetBody "@bob" "hello  world".
Proof. repeat split; reflexivity. Qed.

Example str_runs :
  Py.str 10000000 = "10000000" /\ Py.str 0 = "0" /\ Py.str (-45) = "-45" /\
  Py.str 999999999 = "999999999".
Proof. repeat split; reflexivity. Qed.

Example regex_runs :
  regex_show "show_123" = Some "123" /\
  regex_show (String.append "show_123" (String "010" EmptyString)) = Some "123" /\
  regex_show "show_" = None /\
  regex_show "show_12a" = None /\
  regex_show "xshow_12" = None /\
  regex_del "del_0042" = Some "0042".
Proof. repeat split; reflexivity. Qed.

Example resolve_runs :
  get_user_info "123" Sample.users = Py.Ok (Some Sample.doc123) /\
  get_user_info "@alice" Sample.users = Py.Ok (Some Sample.doc7) /\
  get_user_info "alice" Sample.users = Py.Ok (Some Sample.doc7) /\
  get_user_info "nobody" Sample.users = Py.Ok None.
Proof. repeat split; reflexivity. Qed.

(** The scenario of the specification through the handlers: user 7
    composes "hi" for user 42, then the buttons are pressed. *)
Example scenario_through_handlers :
  exists st1 st2,
    handle_wspr_query Sample.env (mkInlineQuery "wspr 42 hi" Sample.user7) Sample.no_whispers
      = Py.Ok (st1, [InlineAnswer [whisper_article Sample.doc42 "42" "hi" 10000000] (Some 1)]) /\
    on_callback_query (mkCallbackQuery "show_10000000" Sample.user42) st1
      = Some (Py.Ok (st1, [CallbackAnswer "hi" true])) /\
    on_callback_query (mkCallbackQuery "show_10000000" Sample.user7) st1
      = Some (Py.Ok (st1, [CallbackAnswer "This message is not for you." true])) /\
    on_callback_query (mkCallbackQuery "del_10000000" Sample.user99) st1
      = Some (Py.Ok (st1, [CallbackAnswer "Only the sender can delete this message." true])) /\
    on_callback_query (mkCallbackQuery "del_10000000" Sample.user7) st1
      = Some (Py.Ok (st2, [CallbackAnswer "Message deleted." true;
                           EditMessageText "🗑 **This message has been deleted.**"])) /\
    on_callback_query (mkCallbackQuery "show_10000000" Sample.user42) st2
      = Some (Py.Ok (st2, [CallbackAnswer "This message has expired or does not exist." true])).
Proof.
  eexists _, _. split; [vm_compute; reflexivity |].
  repeat split; vm_compute; reflexivity.
Qed.

End Runs.

(** ** Where the code differs from the specification, and instances *)

Section Instances.

Import SecretStore.

(** [reveal_access] on the sample store: the recipient 42 reads "hi". *)
Lemma reveal_access_recipient :
  Py.int "10000000" = Py.Ok 10000000 /\
  Sample.pending !! 10000000 = Some (42, 7, "hi") /\
  reveal 10000000 42 Sample.pending = Body "hi" /\
  show_message_callback "10000000" (Sample.press Sample.user42) Sample.state
    = Py.Ok (Sample.state, [CallbackAnswer "hi" true]).
Proof.
  split; [reflexivity |]. split; [reflexivity |].
  pose proof (reveal_access Sample.state "10000000" 10000000
                (Sample.press Sample.user42) eq_refl) as [Hsome _].
  destruct (Hsome 42 7 "hi" eq_refl) as [Hrecipient _].
  exact (Hrecipient eq_refl).
Defined.

(** The generator's draw is used as it comes: with 10000000 pending, the
    draw 0 gives 10000000 again and the pending entry is replaced. *)
Lemma register_reuses_pending_identifier :
  let wm : gmap Z Whisper := {[ 10000000 := (1, 2, "old") ]} in
  let i := fst (register 0 42 7 "hi" wm) in
  let wm' := snd (register 0 42 7 "hi" wm) in
  i = 10000000 /\
  wm !! i = Some (1, 2, "old") /\
  wm' !! i = Some (42, 7, "hi") /\
  ~ wm ⊆ wm'.
Proof.
  cbn zeta. split; [reflexivity |]. split; [reflexivity |].
  split; [reflexivity |].
  intros Hsub. rewrite map_subseteq_spec in Hsub.
  specialize (Hsub 10000000 (1, 2, "old") eq_refl).
  vm_compute in Hsub. discriminate Hsub.
Qed.

(** [register_stores_under_draw] on the empty store. *)
Lemma register_stores_under_draw_fresh :
  let wm : gmap Z Whisper := ∅ in
  wm !! 10000000 = None /\
  fst (register 0 42 7 "hi" wm) = 10000000 /\
  wm ⊆ snd (register 0 42 7 "hi" wm).
Proof.
  cbn zeta. split; [reflexivity |]. split; [reflexivity |].
  pose proof (register_stores_under_draw 0 42 7 "hi" ∅) as (_ & _ & _ & _ & Hkeep).
  apply Hkeep. reflexivity.
Defined.



(** [reveal_never_mutates] on the sample store: three reveals in a row. *)
Lemma reveal_three_times :
  Py.int "10000000" = Py.Ok 10000000 /\
  whisper_messages Sample.state !! 10000000 = Some (42, 7, "hi") /\
  show_times 3 "10000000" (Sample.press Sample.user42) Sample.state
    = Py.Ok (Sample.state,
             [CallbackAnswer "hi" true; CallbackAnswer "hi" true; CallbackAnswer "hi" true]).
Proof.
  split; [reflexivity |]. split; [reflexivity |].
  pose proof (reveal_never_mutates Sample.state "10000000" 10000000
                (Sample.press Sample.user42) eq_refl) as [_ Htimes].
  exact (Htimes 7 "hi" 3%nat eq_refl).
Defined.

(** Digits behind the marker are not read as an identifier: with a
    profile stored under 123 and no handle "123", the text "123" finds
    the profile and "@123" finds nothing. *)
Lemma marker_digits_looked_up_as_handle :
  find_one_user_id 123 Sample.users = Some Sample.doc123 /\
  get_user_info "123" Sample.users = Py.Ok (Some Sample.doc123) /\
  get_user_info "@123" Sample.users = Py.Ok None /\
  get_user_info "@123" Sample.users <> Py.Ok (find_one_user_id 123 Sample.users).
Proof. repeat split; [reflexivity .. | discriminate]. Qed.

(** [get_user_info_resolve] on the sample directory. *)
Lemma get_user_info_resolve_sample :
  (0 <= 123 /\ NoDup (doc_user_id <$> Sample.users) /\ Sample.doc123 ∈ Sample.users /\
   get_user_info (Py.str 123) Sample.users = Py.Ok (Some Sample.doc123)) /\
  (Py.isdigit "alice" = false /\ Py.startswith_char "@" "alice" = false /\
   get_user_info "@alice" Sample.users = get_user_info "alice" Sample.users) /\
  (Py.isdigit "123" = true /\
   get_user_info "@123" Sample.users = Py.Ok (find_one_username "123" Sample.users)) /\
  (Py.isdigit SampleText.arabic_123 = true /\
   get_user_info SampleText.arabic_123 Sample.users = Py.Ok (Some Sample.doc123)) /\
  (Py.isdigit "nobody" = false /\ get_user_info "nobody" Sample.users = Py.Ok None).
Proof.
  pose proof (get_user_info_resolve Sample.users)
    as (_ & Hid & Hhandle & Hdigits & _ & Hnone).
  assert (Hnd : NoDup (doc_user_id <$> Sample.users)).
  { apply (bool_decide_unpack _). vm_compute. exact I. }
  assert (Hin : Sample.doc123 ∈ Sample.users).
  { unfold Sample.users. rewrite !elem_of_cons. right. right. left. reflexivity. }
  split.
  { split; [lia |]. split; [exact Hnd |]. split; [exact Hin |].
    exact (Hid 123 Sample.doc123 ltac:(lia) Hnd Hin eq_refl). }
  split.
  { split; [reflexivity |]. split; [reflexivity |].
    exact (proj1 (Hhandle "alice" eq_refl eq_refl)). }
  split.
  { split; [reflexivity |]. exact (proj2 (Hdigits "123" eq_refl)). }
  split.
  { split; [reflexivity |]. exact (proj1 (Hdigits SampleText.arabic_123 eq_refl)). }
  split; [reflexivity |].
  apply (Hnone "nobody" eq_refl).
  intros d Hd. unfold Sample.users in Hd. rewrite !elem_of_cons, elem_of_nil in Hd.
  destruct Hd as [-> | [-> | [-> | []]]]; discriminate.
Defined.

(** A dropped handle stays stored: user 7, recorded before with the
    handle "alice", is recorded again without a handle, and the document
    under 7 still carries "alice". *)
Lemma dropped_handle_stays_stored :
  username Sample.user7_no_handle = None /\
  find_one_user_id 7 (users_collection Sample.state) = Some Sample.doc7 /\
  find_one_user_id 7
    (users_collection (store_user_info Sample.clock Sample.user7_no_handle Sample.state))
  = Some (mkUserDoc 7 (Some "Al") None 200 (Some "alice")).
Proof. repeat split; reflexivity. Qed.

(** [store_user_info_upsert] on the sample directory. *)
Lemma store_user_info_upsert_sample :
  let st1 := store_user_info Sample.clock Sample.user99 Sample.state in
  store_user_info Sample.clock Sample.user99 st1 = st1 /\
  (42 <> 99 /\
   find_one_user_id 42 (users_collection st1)
   = find_one_user_id 42 (users_collection Sample.state)).
Proof.
  cbn zeta.
  pose proof (store_user_info_upsert Sample.clock Sample.user99 Sample.state)
    as (Hidem & _ & Hother & _ & _).
  split; [exact Hidem |]. split; [lia |].
  exact (Hother 42 ltac:(cbn; lia)).
Defined.

(** [identifier_token_roundtrip] at the smallest identifier. *)
Lemma identifier_token_roundtrip_smallest :
  10000000 <= 10000000 <= 999999999 /\
  regex_show "show_10000000" = Some "10000000" /\
  regex_del "del_10000000" = Some "10000000" /\
  Py.int "10000000" = Py.Ok 10000000.
Proof.
  split; [lia |].
  pose proof identifier_token_roundtrip as [_ Hround].
  exact (Hround 10000000 ltac:(lia)).
Defined.

End Instances.

(** ** More on the user directory *)

Section DirectoryRoundTrips.

(** Where the documents of an updated collection come from. *)
Lemma update_one_upsert_elem (user_data : UserDoc) (users : list UserDoc) (d : UserDoc) :
  d ∈ update_one_upsert (doc_user_id user_data) user_data users ->
  d ∈ users \/ d = user_data \/
  (exists old, old ∈ users /\ d = set_fields user_data old).
Proof.
  induction users as [| x xs IH]; cbn [update_one_upsert].
  - intros ->%list_elem_of_singleton. right. left. reflexivity.
  - destruct (doc_user_id x =? doc_user_id user_data) eqn:Heq.
    + intros [-> | Hin]%elem_of_cons.
      * right. right. exists x. split; [apply elem_of_cons; left |]; reflexivity.
      * left. apply elem_of_cons. right. exact Hin.
    + intros [-> | Hin]%elem_of_cons.
      * left. apply elem_of_cons. left. reflexivity.
      * destruct (IH Hin) as [Hold | [-> | (old & Hold & ->)]].
        -- left. apply elem_of_cons. right. exact Hold.
        -- right. left. reflexivity.
        -- right. right. exists old.
           split; [apply elem_of_cons; right; exact Hold | reflexivity].
Qed.

(** The identifiers already stored stay stored. *)
Lemma update_one_upsert_ids_mono (user_data : UserDoc) (users : list UserDoc) (n : Z) :
  n ∈ doc_user_id <$> users ->
  n ∈ doc_user_id <$> update_one_upsert (doc_user_id user_data) user_data users.
Proof.
  intros Hin. rewrite update_one_upsert_ids.
  destruct (decide _); [exact Hin |]. apply elem_of_app. left. exact Hin.
Qed.

(** The identifier of the update is stored afterwards. *)
Lemma update_one_upsert_ids_new (user_data : UserDoc) (users : list UserDoc) :
  doc_user_id user_data
  ∈ doc_user_id <$> update_one_upsert (doc_user_id user_data) user_data users.
Proof.
  rewrite update_one_upsert_ids.
  destruct (decide _) as [Hin | _]; [exact Hin |].
  apply elem_of_app. right. apply list_elem_of_singleton. reflexivity.
Qed.

(** The [user_data] dictionary of [store_user_info]. *)
Lemma store_user_info_find (now : nat -> Z) (user : User) (st : State) :
  exists d,
    find_one_user_id (id user) (users_collection (store_user_info now user st)) = Some d /\
    doc_user_id d = id user /\
    doc_first_name d = first_name user /\
    doc_last_name d = last_name user /\
    doc_last_seen d = now 0%nat /\
    (truthy (username user) = true -> doc_username d = username user).
Proof.
  rewrite store_user_info_users.
  set (ud := {| doc_user_id := id user |}).
  pose proof (update_one_upsert_find ud (users_collection st)) as Hfind.
  cbn zeta in Hfind. change (doc_user_id ud) with (id user) in Hfind.
  rewrite Hfind. eexists. split; [reflexivity |].
  destruct (find_one_user_id (id user) (users_collection st)) as [old |];
    subst ud; cbn; repeat (split; [reflexivity |]); intros Ht;
    destruct (username user) as [[| c u] |]; try discriminate Ht; reflexivity.
Qed.

(** X1. What [store_user_info] records is found again by identifier: for a
    user with a non-negative identifier, [get_user_info] on the decimal
    text of that identifier returns a document with the user's identifier
    and names and the time of recording. *)
Theorem store_then_resolve_by_id (now : nat -> Z) (user : User) (st : State) :
  0 <= id user ->
  exists d,
    get_user_info (Py.str (id user)) (users_collection (store_user_info now user st))
      = Py.Ok (Some d) /\
    doc_user_id d = id user /\
    doc_first_name d = first_name user /\
    doc_last_name d = last_name user /\
    doc_last_seen d = now 0%nat.
Proof.
  intros Hid.
  destruct (store_user_info_find now user st) as (d & Hfind & H1 & H2 & H3 & H4 & _).
  exists d. rewrite get_user_info_value, (str_isdigit _ Hid), (int_str _ Hid).
  rewrite Hfind. repeat split; assumption.
Qed.

(** X2. What [store_user_info] records is found again by handle: when the
    user's handle is not a run of digits, does not start with the marker,
    and is carried by no stored document of another identifier, both the
    handle and the handle behind the marker resolve to a document with the
    user's identifier and that handle. *)
Theorem store_then_resolve_by_handle (now : nat -> Z) (user : User) (st : State)
    (h : string) :
  username user = Some h ->
  h <> "" ->
  Py.isdigit h = false ->
  Py.startswith_char "@" h = false ->
  (forall d, d ∈ users_collection st -> doc_username d = Some h ->
             doc_user_id d = id user) ->
  let users := users_collection (store_user_info now user st) in
  exists d,
    get_user_info h users = Py.Ok (Some d) /\
    get_user_info (String "@" h) users = Py.Ok (Some d) /\
    doc_user_id d = id user /\
    doc_username d = Some h.
Proof.
  intros Hname Hne Hdig Hat Honly users.
  assert (Htruthy : truthy (username user) = true).
  { rewrite Hname. destruct h; [congruence | reflexivity]. }
  destruct (store_user_info_find now user st) as (d0 & Hfind0 & _ & _ & _ & _ & Hh0).
  specialize (Hh0 Htruthy). rewrite Hname in Hh0.
  apply find_one_user_id_Some in Hfind0 as [Hin0 _].
  destruct (find_one_username_elem h _ d0 Hin0 Hh0) as [d Hfind].
  exists d. rewrite !get_user_info_value. rewrite Hdig, Hat, isdigit_marker.
  cbn [Py.startswith_char Py.tail]. rewrite Ascii.eqb_refl.
  fold users in Hfind. rewrite Hfind.
  apply find_one_username_Some in Hfind as [Hin Hh].
  split; [reflexivity |]. split; [reflexivity |]. split; [| exact Hh].
  subst users. rewrite store_user_info_users in Hin.
  set (ud := {| doc_user_id := id user |}) in Hin.
  apply (update_one_upsert_elem ud) in Hin as [Hold | [-> | (old & Hold & ->)]].
  - apply Honly; assumption.
  - reflexivity.
  - reflexivity.
Qed.

(** X3. [get_user_info] only returns what is stored and matches: a
    document it returns belongs to the collection and carries the
    identifier the digits denote, or the handle that was asked for. *)
Theorem get_user_info_sound (s : string) (users : list UserDoc) (d : UserDoc) :
  get_user_info s users = Py.Ok (Some d) ->
  d ∈ users /\
  if Py.isdigit s then Py.int s = Py.Ok (doc_user_id d)
  else doc_username d = Some (if Py.startswith_char "@" s then Py.tail s else s).
Proof.
  rewrite get_user_info_value.
  destruct (Py.isdigit s).
  - destruct (Py.int s) as [n | e]; intros [= Hfind].
    apply find_one_user_id_Some in Hfind as [Hin <-]. split; [exact Hin | reflexivity].
  - intros [= Hfind]. apply find_one_username_Some in Hfind. exact Hfind.
Qed.

(** X4. Recording a user adds one document when the identifier is new and
    none otherwise. *)
Theorem store_user_info_count (now : nat -> Z) (user : User) (st : State) :
  length (users_collection (store_user_info now user st)) =
    if decide (id user ∈ user_ids st) then length (users_collection st)
    else S (length (users_collection st)).
Proof.
  rewrite store_user_info_users.
  set (ud := {| doc_user_id := id user |}).
  pose proof (update_one_upsert_ids ud (users_collection st)) as Hids.
  cbn zeta in Hids. change (doc_user_id ud) with (id user) in Hids.
  apply (f_equal length) in Hids. rewrite length_fmap in Hids. rewrite Hids.
  unfold user_ids. destruct (decide _).
  - apply length_fmap.
  - rewrite length_app, length_fmap. cbn. lia.
Qed.

End DirectoryRoundTrips.

(** ** The callback filters and the dispatch of a press *)

Section Filters.

Lemma strip_prefix_Some (p s rest : string) :
  strip_prefix p s = Some rest <-> s = p +:+ rest.
Proof.
  split.
  - revert s. induction p as [| a p IH]; intros s; cbn [strip_prefix].
    + intros [= ->]. reflexivity.
    + destruct s as [| b s]; [discriminate |].
      destruct (Ascii.eqb a b) eqn:Hab; [| discriminate].
      apply Ascii.eqb_eq in Hab as ->. intros H. apply IH in H as ->. reflexivity.
  - intros ->. apply strip_prefix_app.
Qed.

Lemma take_decimal_stop (ds : list string) (c : string) (r : list string) :
  forallb Py.isdecimal_char ds = true -> Py.isdecimal_char c = false ->
  take_decimal (ds ++ c :: r) = (ds, c :: r).
Proof.
  intros Hds Hc. induction ds as [| x ds IH].
  - cbn [app take_decimal]. rewrite Hc. reflexivity.
  - cbn [forallb] in Hds. apply andb_true_iff in Hds as [Hx Hds].
    rewrite <- app_comm_cons. cbn [take_decimal]. rewrite Hx, (IH Hds). reflexivity.
Qed.

(** X5. The filters [^show_(\d+)$] and [^del_(\d+)$] match exactly the
    prefix followed by a non-empty run of decimal digits, of any script,
    with or without one line feed at the end, and group 1 is the run of
    digits. *)
Theorem regex_token_iff (p s g : string) :
  regex_token p s = Some g <->
  Py.isdecimal g = true /\ (s = p +:+ g \/ s = p +:+ g +:+ nl).
Proof.
  split.
  - intros Hmatch. split; [exact (regex_token_group p s g Hmatch) |].
    unfold regex_token in Hmatch.
    destruct (strip_prefix p s) as [rest |] eqn:Hstrip; [| discriminate].
    apply strip_prefix_Some in Hstrip as ->.
    destruct (take_decimal_spec (Py.chars rest)) as (Hrest & _ & _).
    destruct (take_decimal (Py.chars rest)) as [ds tl]. cbn [fst snd] in Hrest.
    apply (f_equal Py.join) in Hrest. rewrite join_chars, join_app in Hrest.
    destruct ds as [| c ds]; [discriminate |].
    destruct (String.eqb (Py.join tl) "") eqn:Hend.
    + apply String.eqb_eq in Hend. rewrite Hend in Hrest. injection Hmatch as <-.
      left. rewrite Hrest, append_nil_r. reflexivity.
    + destruct (String.eqb (Py.join tl) (String "010" EmptyString)) eqn:Hnl;
        [| discriminate].
      apply String.eqb_eq in Hnl. rewrite Hnl in Hrest. injection Hmatch as <-.
      right. rewrite Hrest. reflexivity.
  - intros [Hg [-> | ->]]; [apply regex_token_digits, Hg |].
    destruct (isdecimal_chars g Hg) as [Hne Hall].
    unfold regex_token. rewrite strip_prefix_app.
    rewrite (chars_app g nl eq_refl).
    change (Py.chars nl) with [nl].
    rewrite (take_decimal_stop _ nl [] Hall eq_refl).
    destruct (Py.chars g) eqn:Hc; [congruence |].
    rewrite <- Hc, join_chars. reflexivity.
Qed.

Lemma regex_show_not_del (s g : string) : regex_show s = Some g -> regex_del s = None.
Proof.
  unfold regex_show, regex_del, regex_token.
  destruct (strip_prefix "show_" s) as [rest |] eqn:Hstrip; [| discriminate].
  apply strip_prefix_Some in Hstrip as ->. reflexivity.
Qed.

(** X6. A press is handled by at most one of the two callbacks, whichever
    is tried first; a handled press never raises, answers with exactly one
    alert, and only a delete adds the edit of the posted message. *)
Theorem on_callback_query_one_alert (cq : CallbackQuery) (st : State) :
  (forall g, regex_show (data cq) = Some g -> regex_del (data cq) = None) /\
  (on_callback_query cq st = None <->
   regex_show (data cq) = None /\ regex_del (data cq) = None) /\
  (forall r, on_callback_query cq st = Some r ->
     exists st' text rest,
       r = Py.Ok (st', CallbackAnswer text true :: rest) /\
       (rest = [] \/
        (rest = [EditMessageText "🗑 **This message has been deleted.**"] /\
         text = "Message deleted." /\ regex_show (data cq) = None))).
Proof.
  split; [intros g; apply regex_show_not_del |]. split.
  - unfold on_callback_query.
    destruct (regex_show (data cq)); [split; [discriminate | intros [? _]; discriminate] |].
    destruct (regex_del (data cq)); [split; [discriminate | intros [_ ?]; discriminate] |].
    split; [intros _; split; reflexivity | reflexivity].
  - intros r. unfold on_callback_query.
    destruct (regex_show (data cq)) as [g |] eqn:Hshow.
    + intros [= <-]. destruct (regex_token_int _ _ _ Hshow) as [n Hint].
      rewrite (show_message_callback_reveal g cq st _ Hint). eauto 10.
    + destruct (regex_del (data cq)) as [g |] eqn:Hdel; [| discriminate].
      intros [= <-]. destruct (regex_token_int _ _ _ Hdel) as [n Hint].
      rewrite (delete_message_callback_delete g cq st _ Hint). cbn zeta.
      destruct (fst (SecretStore.delete _ _ _)); cbn; eauto 12.
Qed.

(** X7. A press leaves the profiles and the caches as they are; in
    [whisper_messages] it can only remove, and only the entry under the
    identifier the digits of the token denote. *)
Theorem on_callback_query_frame (cq : CallbackQuery) (st st' : State) (calls : list Call) :
  on_callback_query cq st = Some (Py.Ok (st', calls)) ->
  users_collection st' = users_collection st /\
  username_cache st' = username_cache st /\
  username_to_id_cache st' = username_to_id_cache st /\
  whisper_messages st' ⊆ whisper_messages st /\
  exists g i,
    (regex_show (data cq) = Some g \/ regex_del (data cq) = Some g) /\
    Py.int g = Py.Ok i /\
    forall j, j <> i -> whisper_messages st' !! j = whisper_messages st !! j.
Proof.
  unfold on_callback_query.
  destruct (regex_show (data cq)) as [g |] eqn:Hshow.
  - destruct (regex_token_int _ _ _ Hshow) as [n Hint].
    rewrite (show_message_callback_reveal g cq st _ Hint). intros [= <- _].
    repeat (split; [reflexivity |]). eauto 10.
  - destruct (regex_del (data cq)) as [g |] eqn:Hdel; [| discriminate].
    destruct (regex_token_int _ _ _ Hdel) as [n Hint].
    rewrite (delete_message_callback_delete g cq st _ Hint). cbn zeta.
    intros [= <- _]. cbn [users_collection username_cache username_to_id_cache
                          whisper_messages set_whisper_messages].
    repeat (split; [reflexivity |]).
    unfold SecretStore.delete.
    destruct (whisper_messages st !! n)
      as [[[target_id sender_id] message_text] |] eqn:Hin; cbn [snd].
    + destruct (id (cq_from_user cq) =? sender_id); cbn [snd].
      * split; [apply delete_subseteq |].
        exists g, n. split; [right; reflexivity |].
        split; [exact Hint |]. intros j Hj. apply lookup_delete_ne. congruence.
      * split; [reflexivity |]. exists g, n. eauto.
    + split; [reflexivity |]. exists g, n. eauto.
Qed.

End Filters.

(** ** Composing a whisper *)

Section ComposeMore.

Import SecretStore.

(** The decimal text of a natural number is a word. *)
Lemma str_is_word (n : Z) : 0 <= n -> is_word (Py.str n) = true.
Proof.
  intros Hn. destruct (str_digits n Hn) as (Hd & Hne & _).
  destruct (ascii_digits_text _ Hd Hne) as (_ & _ & Hns & _ & _).
  unfold is_word. destruct (Py.str n); [congruence | exact Hns].
Qed.

Lemma compose_form_TargetBody (q target body : string) :
  compose_form q = TargetBody target body ->
  exists w rest,
    Py.split_maxsplit1 q = [w; rest] /\ Py.split_maxsplit1 rest = [target; body].
Proof.
  unfold compose_form.
  destruct (Py.split_maxsplit1 q) as [| w [| rest [| ? ?]]]; try discriminate.
  destruct (Py.split_maxsplit1 rest) as [| t [| b [| ? ?]]] eqn:Hrest;
    try discriminate.
  intros [= <- <-]. eauto.
Qed.

(** The run of [handle_wspr_query] on a query with a target that is found
    and a body. *)
Lemma handle_wspr_query_registered (env : Env) (iq : InlineQuery) (st : State)
    (target body : string) (user_info : UserDoc) :
  let st1 := store_user_info (now env) (iq_from_user iq) st in
  let message_id := generate_message_id (draw env) in
  compose_form (query iq) = TargetBody target body ->
  get_user_info target (users_collection st1) = Py.Ok (Some user_info) ->
  handle_wspr_query env iq st =
    Py.Ok (set_whisper_messages
             (<[message_id := (doc_user_id user_info, id (iq_from_user iq), body)]>
                (whisper_messages st)) st1,
           [InlineAnswer [whisper_article user_info target body message_id] (Some 1)]).
Proof.
  cbn zeta. intros (w & rest & Hq & Hrest)%compose_form_TargetBody Hres.
  unfold handle_wspr_query. rewrite Hq.
  rewrite index_second, bind_Ok, Hrest, index_first, bind_Ok, Hres, bind_Ok.
  cbn [length Nat.ltb Nat.leb]. rewrite index_second, bind_Ok.
  unfold register. rewrite store_user_info_whispers. cbn.
  unfold whisper_article.
  destruct (doc_username user_info) as [[| c u] |]; reflexivity.
Qed.

(** Every run of [handle_wspr_query] ends in one of two ways. *)
Lemma handle_wspr_query_outcome (env : Env) (iq : InlineQuery) (st : State) :
  let st1 := store_user_info (now env) (iq_from_user iq) st in
  let message_id := generate_message_id (draw env) in
  (exists article, handle_wspr_query env iq st = Py.Ok (st1, [InlineAnswer [article] None])) \/
  (exists target body user_info,
     body <> "" /\
     compose_form (query iq) = TargetBody target body /\
     get_user_info target (users_collection st1) = Py.Ok (Some user_info) /\
     handle_wspr_query env iq st =
       Py.Ok (set_whisper_messages
                (<[message_id := (doc_user_id user_info, id (iq_from_user iq), body)]>
                   (whisper_messages st)) st1,
              [InlineAnswer [whisper_article user_info target body message_id] (Some 1)])).
Proof.
  cbn zeta.
  destruct (compose_form (query iq)) as [| target | target body] eqn:Hform.
  1, 2: left; unfold handle_wspr_query; unfold compose_form in Hform.
  - destruct (split_maxsplit1_shape (query iq))
      as [Hq | [[w Hq] | (w & rest & Hq & Hrest & Hskip)]]; rewrite Hq in *.
    + cbn. eauto.
    + cbn. eauto.
    + exfalso.
      destruct (split_maxsplit1_first rest Hrest Hskip)
        as [[t Ht] | (t & b & Ht & _)]; rewrite Ht in Hform; discriminate.
  - destruct (Py.split_maxsplit1 (query iq)) as [| w [| rest [| ? ?]]]; try discriminate.
    destruct (Py.split_maxsplit1 rest) as [| t [| b [| ? ?]]] eqn:Hrest; try discriminate.
    injection Hform as ->.
    rewrite index_second, bind_Ok, Hrest, index_first, bind_Ok,
      get_user_info_value, bind_Ok.
    destruct (if Py.isdigit target then _ else _); cbn; eauto.
  - destruct (get_user_info target
                (users_collection (store_user_info (now env) (iq_from_user iq) st)))
      as [[user_info |] | e] eqn:Hres.
    + right. exists target, body, user_info.
      split; [| split; [reflexivity | split; [exact Hres |]]].
      * apply compose_form_TargetBody in Hform as (w & rest & Hq & Hrest).
        destruct (split_maxsplit1_shape rest)
          as [Hnil | [[x Hone] | (x & y & Htwo & Hy & _)]]; try congruence.
      * apply (handle_wspr_query_registered env iq st target body user_info Hform Hres).
    + left. apply compose_form_TargetBody in Hform as (w & rest & Hq & Hrest).
      unfold handle_wspr_query. rewrite Hq.
      rewrite index_second, bind_Ok, Hrest, index_first, bind_Ok, Hres, bind_Ok.
      cbn. eauto.
    + rewrite get_user_info_value in Hres. discriminate.
Qed.

End ComposeMore.

Section ComposeProperties.

Import SecretStore.

(** X8. The body is stored as it was typed: for a query made of a command
    word, a target word that is found and a body, each separated by
    whitespace (of any kind [str.isspace] accepts), the entry stored under
    the drawn identifier has the found profile as recipient, the querying
    user as sender, and as body the text after the target without its
    leading whitespace; inner and trailing whitespace are kept. *)
Theorem compose_stores_body (env : Env) (u : User) (st : State)
    (cmd sep1 target sep2 body : string) (d : UserDoc) :
  is_word cmd = true -> Py.isspace sep1 = true ->
  is_word target = true -> Py.starts_cont target = false ->
  Py.isspace sep2 = true -> Py.starts_cont body = false ->
  Py.skip_space body <> "" ->
  get_user_info target (users_collection (store_user_info (now env) u st))
    = Py.Ok (Some d) ->
  exists st' calls,
    handle_wspr_query env
      (mkInlineQuery (cmd +:+ sep1 +:+ target +:+ sep2 +:+ body) u) st
      = Py.Ok (st', calls) /\
    whisper_messages st' !! generate_message_id (draw env)
      = Some (doc_user_id d, id u, Py.skip_space body).
Proof.
  intros Hcmd Hs1 Ht Htb Hs2 Hb Hbody Hres.
  set (iq := mkInlineQuery (cmd +:+ sep1 +:+ target +:+ sep2 +:+ body) u).
  pose proof (compose_form_body cmd sep1 target sep2 body Hcmd Hs1 Ht Htb Hs2 Hb Hbody)
    as Hform.
  rewrite (handle_wspr_query_registered env iq st target _ d Hform Hres).
  eexists _, _. split; [reflexivity |].
  cbn [whisper_messages set_whisper_messages]. apply lookup_insert_eq.
Qed.

(** X9. Whatever the query, [handle_wspr_query] returns; the profiles and
    caches are those [store_user_info] leaves; in [whisper_messages] every
    entry under an identifier other than the drawn one is as before, and
    the store is either unchanged or has a new entry under the drawn
    identifier whose sender is the querying user. *)
Theorem handle_wspr_query_frame (env : Env) (iq : InlineQuery) (st : State) :
  let st1 := store_user_info (now env) (iq_from_user iq) st in
  let message_id := generate_message_id (draw env) in
  exists st' calls,
    handle_wspr_query env iq st = Py.Ok (st', calls) /\
    users_collection st' = users_collection st1 /\
    username_cache st' = username_cache st1 /\
    username_to_id_cache st' = username_to_id_cache st1 /\
    (forall j, j <> message_id -> whisper_messages st' !! j = whisper_messages st !! j) /\
    (whisper_messages st' = whisper_messages st \/
     exists r body,
       whisper_messages st' !! message_id = Some (r, id (iq_from_user iq), body)).
Proof.
  cbn zeta.
  destruct (handle_wspr_query_outcome env iq st)
    as [[article ->] | (target & body & d & _ & _ & _ & ->)].
  - eexists _, _. split; [reflexivity |]. repeat (split; [reflexivity |]).
    rewrite store_user_info_whispers. split; [reflexivity | left; reflexivity].
  - eexists _, _. split; [reflexivity |].
    cbn [users_collection username_cache username_to_id_cache
         whisper_messages set_whisper_messages].
    repeat (split; [reflexivity |]). split.
    + intros j Hj. apply lookup_insert_ne. congruence.
    + right. eexists _, _. apply lookup_insert_eq.
Qed.

(** X10. The buttons of the answer work on the state the handler leaves:
    after a query with a found target and a body, the reveal token shows
    the body to the found profile's user and the denial to anyone else,
    and the delete token removes the entry for the querying user and is
    refused for anyone else. *)
Theorem compose_buttons_work (env : Env) (iq : InlineQuery) (st : State)
    (target body : string) (d : UserDoc) :
  compose_form (query iq) = TargetBody target body ->
  get_user_info target
    (users_collection (store_user_info (now env) (iq_from_user iq) st))
    = Py.Ok (Some d) ->
  exists st' article show_text show_token del_text del_token row,
    handle_wspr_query env iq st = Py.Ok (st', [InlineAnswer [article] (Some 1)]) /\
    reply_markup article =
      Some [[CallbackButton show_text show_token; CallbackButton del_text del_token]; row] /\
    forall u,
      on_callback_query (mkCallbackQuery show_token u) st' =
        Some (Py.Ok (st', [CallbackAnswer
                             (if id u =? doc_user_id d then body
                              else "This message is not for you.") true])) /\
      on_callback_query (mkCallbackQuery del_token u) st' =
        Some (Py.Ok
                (if id u =? id (iq_from_user iq) then
                   (set_whisper_messages
                      (base.delete (generate_message_id (draw env)) (whisper_messages st')) st',
                    [CallbackAnswer "Message deleted." true;
                     EditMessageText "🗑 **This message has been deleted.**"])
                 else
                   (st', [CallbackAnswer "Only the sender can delete this message." true]))).
Proof.
  intros Hform Hres.
  rewrite (handle_wspr_query_registered env iq st target body d Hform Hres).
  eexists _, _, _, _, _, _, _. split; [reflexivity |]. split; [reflexivity |].
  pose proof (generate_message_id_range (draw env)) as Hrange.
  intros u. split.
  - rewrite press_show by lia.
    cbn [whisper_messages set_whisper_messages]. unfold reveal.
    rewrite lookup_insert_eq.
    destruct (id u =? doc_user_id d); reflexivity.
  - rewrite press_del by lia. cbn zeta.
    cbn [whisper_messages set_whisper_messages]. unfold delete.
    rewrite lookup_insert_eq.
    destruct (id u =? id (iq_from_user iq)); reflexivity.
Qed.

(** X11. Composing and deleting undo each other: when the drawn
    identifier is not pending, a whisper composed and then deleted by its
    sender leaves [whisper_messages] as it was before the query. *)
Theorem compose_then_delete_restores (env : Env) (iq : InlineQuery) (st : State)
    (target body : string) (d : UserDoc) :
  compose_form (query iq) = TargetBody target body ->
  get_user_info target
    (users_collection (store_user_info (now env) (iq_from_user iq) st))
    = Py.Ok (Some d) ->
  whisper_messages st !! generate_message_id (draw env) = None ->
  exists st1 calls1 st2 calls2,
    handle_wspr_query env iq st = Py.Ok (st1, calls1) /\
    on_callback_query
      (mkCallbackQuery ("del_" +:+ Py.str (generate_message_id (draw env)))
         (iq_from_user iq)) st1
      = Some (Py.Ok (st2, calls2)) /\
    whisper_messages st2 = whisper_messages st /\
    users_collection st2 = users_collection st1.
Proof.
  intros Hform Hres Hfresh.
  rewrite (handle_wspr_query_registered env iq st target body d Hform Hres).
  pose proof (generate_message_id_range (draw env)) as Hrange.
  eexists _, _, _, _. split; [reflexivity |].
  rewrite press_del by lia. cbn zeta. split; [reflexivity |].
  cbn [whisper_messages users_collection set_whisper_messages]. unfold delete.
  rewrite lookup_insert_eq, Z.eqb_refl. cbn [snd].
  split; [apply delete_insert_id, Hfresh | reflexivity].
Qed.

(** X12. A user can whisper to their own identifier on first contact: the
    sender is recorded before the target is looked up, so the query
    [command <own id> body], its parts separated by whitespace, stores an
    entry from the user to the user even when the collection knew
    nobody. *)
Theorem self_whisper_first_contact (env : Env) (u : User) (st : State)
    (cmd sep1 sep2 body : string) :
  is_word cmd = true ->
  Py.isspace sep1 = true -> Py.isspace sep2 = true ->
  0 <= id u ->
  Py.starts_cont body = false ->
  Py.skip_space body <> "" ->
  exists st' calls,
    handle_wspr_query env
      (mkInlineQuery (cmd +:+ sep1 +:+ Py.str (id u) +:+ sep2 +:+ body) u) st
      = Py.Ok (st', calls) /\
    whisper_messages st' !! generate_message_id (draw env)
      = Some (id u, id u, Py.skip_space body).
Proof.
  intros Hcmd Hs1 Hs2 Hid Hb Hbody.
  destruct (store_user_info_find (now env) u st) as (d & Hfind & Hd & _).
  assert (Hres : get_user_info (Py.str (id u))
                   (users_collection (store_user_info (now env) u st)) = Py.Ok (Some d)).
  { rewrite get_user_info_value, (str_isdigit _ Hid), (int_str _ Hid).
    rewrite Hfind. reflexivity. }
  set (iq := mkInlineQuery (cmd +:+ sep1 +:+ Py.str (id u) +:+ sep2 +:+ body) u).
  pose proof (compose_form_body cmd sep1 (Py.str (id u)) sep2 body Hcmd Hs1
                (str_is_word _ Hid) (str_starts _ Hid) Hs2 Hb Hbody) as Hform.
  rewrite (handle_wspr_query_registered env iq st _ _ d Hform Hres).
  eexists _, _. split; [reflexivity |].
  cbn [whisper_messages set_whisper_messages iq iq_from_user].
  rewrite lookup_insert_eq, Hd. reflexivity.
Qed.

End ComposeProperties.

(** ** The info card *)

Section InfoCard.

Lemma get_user_info_elem (s : string) (users : list UserDoc) (d : UserDoc) :
  get_user_info s users = Py.Ok (Some d) -> d ∈ users.
Proof.
  rewrite get_user_info_value.
  destruct (Py.isdigit s).
  - destruct (Py.int s) as [n | e]; intros [= Hfind].
    apply (find_one_user_id_Some _ _ _ Hfind).
  - intros [= Hfind]. apply (find_one_username_Some _ _ _ Hfind).
Qed.

Lemma find_one_user_id_stored (n : Z) (users : list UserDoc) :
  n ∈ doc_user_id <$> users ->
  exists d, find_one_user_id n users = Some d /\ doc_user_id d = n.
Proof.
  intros (x & -> & Hx)%list_elem_of_fmap.
  unfold find_one_user_id.
  destruct (find _ users) as [d |] eqn:Hfind.
  - exists d. split; [reflexivity |].
    apply find_some in Hfind as [_ Heq]. apply Z.eqb_eq, Heq.
  - apply list_elem_of_In in Hx.
    pose proof (find_none _ _ Hfind x Hx) as Hno. cbn beta in Hno.
    rewrite Z.eqb_refl in Hno. discriminate.
Qed.

Lemma store_user_info_ids_mono (now : nat -> Z) (u : User) (st : State) (n : Z) :
  n ∈ user_ids st -> n ∈ user_ids (store_user_info now u st).
Proof.
  unfold user_ids. rewrite store_user_info_users.
  set (ud := {| doc_user_id := id u |}).
  apply (update_one_upsert_ids_mono ud).
Qed.

Lemma store_user_info_ids_new (now : nat -> Z) (u : User) (st : State) :
  id u ∈ user_ids (store_user_info now u st).
Proof.
  unfold user_ids. rewrite store_user_info_users.
  set (ud := {| doc_user_id := id u |}).
  apply (update_one_upsert_ids_new ud).
Qed.


(** X14. The card's button leads to a whisper for the profile shown: for
    a found profile without a handle and with a non-negative identifier,
    the query the button prefills, sent by any user, stores a whisper with
    that profile's identifier as recipient and the prefilled greeting as
    body. *)
Theorem info_card_button_composes (env env' : Env) (iq : InlineQuery) (st : State)
    (w target : string) (d : UserDoc) (u' : User) :
  let st1 := store_user_info (now env) (iq_from_user iq) st in
  Py.split_maxsplit1 (query iq) = [w; target] ->
  get_user_info target (users_collection st1) = Py.Ok (Some d) ->
  truthy (doc_username d) = false ->
  0 <= doc_user_id d ->
  exists article url prefilled st2 calls,
    handle_msg_query env iq st = Py.Ok (st1, [InfoAnswer [article] (Some 60)]) /\
    info_markup article =
      Some [[UrlButton "Private" url; SwitchButton "Secret Message" prefilled]] /\
    handle_wspr_query env' (mkInlineQuery prefilled u') st1 = Py.Ok (st2, calls) /\
    whisper_messages st2 !! generate_message_id (draw env')
      = Some (doc_user_id d, id u', "Hello 👋").
Proof.
  cbn zeta. intros Hsplit Hres Ht Hid.
  set (st1 := store_user_info (now env) (iq_from_user iq) st) in *.
  set (prefilled := "wspr" +:+ " " +:+ Py.str (doc_user_id d) +:+ " " +:+ "Hello 👋").
  assert (Hmsg : exists article url,
             handle_msg_query env iq st = Py.Ok (st1, [InfoAnswer [article] (Some 60)]) /\
             info_markup article =
               Some [[UrlButton "Private" url; SwitchButton "Secret Message" prefilled]]).
  { unfold handle_msg_query. fold st1. rewrite Hsplit.
    rewrite index_second, bind_Ok, Hres, bind_Ok. cbn [length Nat.ltb Nat.leb].
    cbn zeta. rewrite Ht. eexists _, _. split; reflexivity. }
  destruct Hmsg as (article & url & Hrun & Hmarkup).
  exists article, url, prefilled.
  set (iq' := mkInlineQuery prefilled u').
  assert (Hform : compose_form (query iq') = TargetBody (Py.str (doc_user_id d)) "Hello 👋").
  { cbn [query iq']. unfold prefilled.
    apply (compose_form_body "wspr" " " _ " " "Hello 👋" eq_refl eq_refl
             (str_is_word _ Hid) (str_starts _ Hid) eq_refl eq_refl).
    discriminate. }
  assert (Hstored : doc_user_id d ∈ user_ids (store_user_info (now env') u' st1)).
  { apply store_user_info_ids_mono. unfold user_ids.
    apply list_elem_of_fmap. exists d. split; [reflexivity |].
    apply (get_user_info_elem _ _ _ Hres). }
  destruct (find_one_user_id_stored _ _ Hstored) as (d2 & Hfind & Hd2).
  assert (Hres' : get_user_info (Py.str (doc_user_id d))
                    (users_collection (store_user_info (now env') u' st1))
                  = Py.Ok (Some d2)).
  { rewrite get_user_info_value, (str_isdigit _ Hid), (int_str _ Hid).
    rewrite Hfind. reflexivity. }
  rewrite (handle_wspr_query_registered env' iq' st1 _ _ d2 Hform Hres').
  eexists _, _. split; [exact Hrun |]. split; [exact Hmarkup |].
  split; [reflexivity |].
  cbn [whisper_messages set_whisper_messages iq' iq_from_user].
  rewrite lookup_insert_eq, Hd2. reflexivity.
Qed.

End InfoCard.

(** ** The scenario of the specification *)

Section Scenario.

Import SecretStore.

(** C3. The scenario, for any draw of the generator and from any state.
    Registering a whisper from 7 to 42 with body "hi" gives an identifier
    [I] under which: a reveal by 42 gives "hi", a reveal by 7 is denied, a
    delete by 99 is denied, a delete by 7 succeeds, and a reveal by 42 is
    then not found.  The same holds of the handlers: on any state whose
    [whisper_messages] is the store after the registration, the presses of
    the tokens [show_<I>] and [del_<I>] by the three users are answered in
    that way, the delete by 7 leaving the store without the entry; and the
    query "wspr 42 hi" from user 7, when 42 is a stored profile, performs
    that registration and answers with these two tokens. *)
Theorem scenario_42_7_hi (d : Z) (st : State) (u42 u7 u99 : User) :
  id u42 = 42 -> id u7 = 7 -> id u99 = 99 ->
  let wm := whisper_messages st in
  let I := fst (register d 42 7 "hi" wm) in
  let wm1 := snd (register d 42 7 "hi" wm) in
  let wm2 := snd (delete I 7 wm1) in
  let show := fun u => mkCallbackQuery ("show_" +:+ Py.str I) u in
  let del := fun u => mkCallbackQuery ("del_" +:+ Py.str I) u in
  (reveal I 42 wm1 = Body "hi" /\
   reveal I 7 wm1 = RevealDenied /\
   delete I 99 wm1 = (DeleteDenied, wm1) /\
   fst (delete I 7 wm1) = DeleteOk /\
   reveal I 42 wm2 = RevealNotFound) /\
  (forall s1, whisper_messages s1 = wm1 ->
     let s2 := set_whisper_messages wm2 s1 in
     on_callback_query (show u42) s1 = Some (Py.Ok (s1, [CallbackAnswer "hi" true])) /\
     on_callback_query (show u7) s1
       = Some (Py.Ok (s1, [CallbackAnswer "This message is not for you." true])) /\
     on_callback_query (del u99) s1
       = Some (Py.Ok (s1, [CallbackAnswer "Only the sender can delete this message." true])) /\
     on_callback_query (del u7) s1
       = Some (Py.Ok (s2, [CallbackAnswer "Message deleted." true;
                           EditMessageText "🗑 **This message has been deleted.**"])) /\
     on_callback_query (show u42) s2
       = Some (Py.Ok (s2, [CallbackAnswer "This message has expired or does not exist." true]))) /\
  (forall env, draw env = d -> 42 ∈ user_ids st ->
     exists article,
       handle_wspr_query env (mkInlineQuery "wspr 42 hi" u7) st
         = Py.Ok (set_whisper_messages wm1 (store_user_info (now env) u7 st),
                  [InlineAnswer [article] (Some 1)]) /\
       reply_markup article =
         Some [[CallbackButton "📖 Show Message" ("show_" +:+ Py.str I);
                CallbackButton "🗑 Delete" ("del_" +:+ Py.str I)];
               [SwitchInlineButton "📝 New Message" "wspr 42 "]]).
Proof.
  intros H42 H7 H99. cbn zeta. cbn [register fst snd].
  pose proof (generate_message_id_range d) as Hrange.
  set (I := generate_message_id d) in *.
  assert (Hstore :
            reveal I 42 (<[I := (42, 7, "hi")]> (whisper_messages st)) = Body "hi" /\
            reveal I 7 (<[I := (42, 7, "hi")]> (whisper_messages st)) = RevealDenied /\
            delete I 99 (<[I := (42, 7, "hi")]> (whisper_messages st))
              = (DeleteDenied, <[I := (42, 7, "hi")]> (whisper_messages st)) /\
            delete I 7 (<[I := (42, 7, "hi")]> (whisper_messages st))
              = (DeleteOk, base.delete I (<[I := (42, 7, "hi")]> (whisper_messages st))) /\
            reveal I 42 (base.delete I (<[I := (42, 7, "hi")]> (whisper_messages st)))
              = RevealNotFound).
  { unfold reveal, delete. rewrite lookup_insert_eq, lookup_delete_eq.
    repeat split; reflexivity. }
  destruct Hstore as (Hr42 & Hr7 & Hd99 & Hd7 & Hr42').
  split; [| split].
  - rewrite Hd7. cbn [fst snd]. repeat split; assumption.
  - intros s1 Hs1. cbn zeta. rewrite Hd7. cbn [snd].
    assert (Hs2 : whisper_messages
                    (set_whisper_messages
                       (base.delete I (<[I := (42, 7, "hi")]> (whisper_messages st))) s1)
                  = base.delete I (<[I := (42, 7, "hi")]> (whisper_messages st)))
      by reflexivity.
    rewrite !press_show by lia. rewrite !press_del by lia. cbn zeta.
    rewrite Hs2, Hs1, H42, H7, H99, Hr42, Hr7, Hd99, Hd7, Hr42'.
    cbn [fst snd reveal_notice delete_calls].
    rewrite <- Hs1, set_whisper_messages_same.
    repeat split; reflexivity.
  - intros env Hdraw Hstored.
    apply (store_user_info_ids_mono (now env) u7) in Hstored.
    destruct (find_one_user_id_stored _ _ Hstored) as (d2 & Hfind & Hd2).
    assert (Hres : get_user_info "42" (users_collection (store_user_info (now env) u7 st))
                   = Py.Ok (Some d2)).
    { assert (Hint : Py.int "42" = Py.Ok 42) by (vm_compute; reflexivity).
      rewrite get_user_info_value, (int_isdigit _ _ Hint), Hint, Hfind. reflexivity. }
    rewrite (handle_wspr_query_registered env (mkInlineQuery "wspr 42 hi" u7) st
               "42" "hi" d2 eq_refl Hres).
    cbn [iq_from_user]. rewrite Hd2, H7, Hdraw. fold I.
    eexists. split; reflexivity.
Qed.

End Scenario.

(** ** Runs of the bot *)

Section Runs_of_events.

Lemma on_callback_query_state (cq : CallbackQuery) (st : State)
    (r : Py.result (State * list Call)) :
  on_callback_query cq st = Some r ->
  (exists calls, r = Py.Ok (st, calls)) \/
  (exists g i r0 body calls,
     regex_del (data cq) = Some g /\ Py.int g = Py.Ok i /\
     whisper_messages st !! i = Some (r0, id (cq_from_user cq), body) /\
     r = Py.Ok (set_whisper_messages (delete i (whisper_messages st)) st, calls)).
Proof.
  unfold on_callback_query.
  destruct (regex_show (data cq)) as [g |] eqn:Hshow.
  - destruct (regex_token_int _ _ _ Hshow) as [n Hint].
    rewrite (show_message_callback_reveal g cq st _ Hint). intros [= <-]. eauto.
  - destruct (regex_del (data cq)) as [g |] eqn:Hdel; [| discriminate].
    destruct (regex_token_int _ _ _ Hdel) as [n Hint].
    unfold delete_message_callback. rewrite Hint, bind_Ok.
    destruct (whisper_messages st !! n)
      as [[[target_id sender_id] message_text] |] eqn:Hin.
    + destruct (id (cq_from_user cq) =? sender_id) eqn:Heq.
      * apply Z.eqb_eq in Heq as <-. intros [= <-]. right.
        exists g, n, target_id, message_text. eauto 10.
      * intros [= <-]. left. eauto.
    + intros [= <-]. left. eauto.
Qed.

Lemma handle_msg_query_state (env : Env) (iq : InlineQuery) (st : State) :
  exists out,
    handle_msg_query env iq st
    = Py.Ok (store_user_info (now env) (iq_from_user iq) st, out).
Proof.
  unfold handle_msg_query.
  destruct (split_maxsplit1_shape (query iq))
    as [-> | [[w ->] | (w & target & -> & _ & _)]].
  - cbn. eauto.
  - cbn. eauto.
  - rewrite index_second, bind_Ok, get_user_info_value, bind_Ok.
    cbn [length Nat.ltb Nat.leb].
    destruct (if Py.isdigit target then _ else _) as [d |]; [| cbn; eauto].
    cbn zeta. destruct (truthy (doc_username d)); eauto.
Qed.

(** What one update does to the state: nothing, the recording of a user,
    a registration on top of it, or the removal of an entry by its
    sender. *)
Lemma handle_event_effect (ev : Event) (st : State) :
  exists st' out,
    handle_event ev st = Py.Ok (st', out) /\
    (st' = st \/
     (exists now u, st' = store_user_info now u st) \/
     (exists env iq r body,
        ev = InlineQueryEvent env iq /\
        body <> "" /\
        r ∈ user_ids (store_user_info (now env) (iq_from_user iq) st) /\
        st' = set_whisper_messages
                (<[generate_message_id (draw env) := (r, id (iq_from_user iq), body)]>
                   (whisper_messages st))
                (store_user_info (now env) (iq_from_user iq) st)) \/
     (exists cq g i r0 body,
        ev = CallbackQueryEvent cq /\
        regex_del (data cq) = Some g /\ Py.int g = Py.Ok i /\
        whisper_messages st !! i = Some (r0, id (cq_from_user cq), body) /\
        st' = set_whisper_messages (delete i (whisper_messages st)) st)).
Proof.
  destruct ev as [env iq | cq | env bot u | bot]; cbn [handle_event].
  - unfold on_inline_query. destruct (regex_wspr (query iq)).
    + destruct (handle_wspr_query_outcome env iq st)
        as [[article ->] | (target & body & d & Hbody & _ & Hres & ->)]; cbn [lift_calls].
      * eexists _, _. split; [reflexivity |]. right. left. eauto.
      * eexists _, _. split; [reflexivity |]. right. right. left.
        exists env, iq, (doc_user_id d), body.
        split; [reflexivity |]. split; [exact Hbody |]. split; [| reflexivity].
        unfold user_ids. apply list_elem_of_fmap. exists d.
        split; [reflexivity | apply (get_user_info_elem _ _ _ Hres)].
    + destruct (regex_msg (query iq)).
      * destruct (handle_msg_query_state env iq st) as [out ->].
        eexists _, _. split; [reflexivity |]. right. left. eauto.
      * eexists _, _. split; [reflexivity |]. left. reflexivity.
  - destruct (on_callback_query cq st) as [r |] eqn:Hcb.
    + destruct (on_callback_query_state cq st r Hcb)
        as [[calls ->] | (g & i & r0 & body & calls & Hdel & Hint & Hin & ->)];
        cbn [lift_calls].
      * eexists _, _. split; [reflexivity |]. left. reflexivity.
      * eexists _, _. split; [reflexivity |]. right. right. right.
        exists cq, g, i, r0, body. eauto 10.
    + eexists _, _. split; [reflexivity |]. left. reflexivity.
  - eexists _, _. split; [reflexivity |]. right. left. eauto.
  - eexists _, _. split; [reflexivity |]. left. reflexivity.
Qed.

Lemma state_ok_store (now : nat -> Z) (u : User) (st : State) :
  state_ok st -> state_ok (store_user_info now u st).
Proof.
  intros [Hids Hhandles Hwh]. split.
  - unfold user_ids. rewrite store_user_info_users.
    set (ud := {| doc_user_id := id u |}).
    apply (update_one_upsert_NoDup ud _ Hids).
  - intros d. rewrite store_user_info_users.
    set (ud := {| doc_user_id := id u |}).
    assert (Hud : doc_username ud <> Some "").
    { subst ud. cbn. destruct (username u) as [[| c x] |]; cbn; congruence. }
    intros [Hold | [-> | (old & Hold & ->)]]%(update_one_upsert_elem ud).
    + apply Hhandles, Hold.
    + exact Hud.
    + unfold set_fields. cbn [doc_username].
      destruct (doc_username ud) as [x |] eqn:Hx; [exact Hud | apply Hhandles, Hold].
  - intros i r s body. rewrite store_user_info_whispers. intros Hin.
    destruct (Hwh i r s body Hin) as (Hi & Hr & Hs & Hb).
    split; [exact Hi |].
    split; [apply store_user_info_ids_mono, Hr |].
    split; [apply store_user_info_ids_mono, Hs | exact Hb].
Qed.

Lemma state_ok_insert (st : State) (i r s : Z) (body : string) :
  state_ok st -> 10000000 <= i <= 999999999 ->
  r ∈ user_ids st -> s ∈ user_ids st -> body <> "" ->
  state_ok (set_whisper_messages (<[i := (r, s, body)]> (whisper_messages st)) st).
Proof.
  intros [Hids Hhandles Hwh] Hi Hr Hs Hb. split; [exact Hids | exact Hhandles |].
  intros j r' s' body'. cbn [whisper_messages set_whisper_messages].
  destruct (decide (i = j)) as [<- | Hne].
  - rewrite lookup_insert_eq. intros [= <- <- <-]. auto.
  - rewrite lookup_insert_ne by exact Hne. apply Hwh.
Qed.

Lemma state_ok_delete (st : State) (i : Z) :
  state_ok st -> state_ok (set_whisper_messages (delete i (whisper_messages st)) st).
Proof.
  intros [Hids Hhandles Hwh]. split; [exact Hids | exact Hhandles |].
  intros j r s body. cbn [whisper_messages set_whisper_messages].
  intros Hin. apply (Hwh j r s body).
  apply (lookup_weaken _ _ _ _ Hin), delete_subseteq.
Qed.

Lemma handle_event_state_ok (ev : Event) (st st' : State) (out : list Output) :
  handle_event ev st = Py.Ok (st', out) -> state_ok st -> state_ok st'.
Proof.
  intros Hrun Hok.
  destruct (handle_event_effect ev st) as (st1 & out1 & Hrun1 & Heffect).
  rewrite Hrun in Hrun1. injection Hrun1 as <- <-.
  destruct Heffect as [-> | [(now & u & ->) | [(env & iq & r & body & _ & Hb & Hr & ->)
                       | (cq & g & i & r0 & body & _ & _ & _ & _ & ->)]]].
  - exact Hok.
  - apply state_ok_store, Hok.
  - pose proof (state_ok_store (now env) (iq_from_user iq) st Hok) as Hok1.
    pose proof (state_ok_insert _ (generate_message_id (draw env)) r
                  (id (iq_from_user iq)) body Hok1
                  (generate_message_id_range _) Hr
                  (store_user_info_ids_new _ _ _) Hb) as Hok2.
    rewrite store_user_info_whispers in Hok2. exact Hok2.
  - apply state_ok_delete, Hok.
Qed.

(** X15. Every sequence of updates is handled to the end without an
    exception, from any state; the state of a fresh process is well
    formed, and a run keeps a well-formed state well formed: one profile
    per identifier, no empty handle, and every pending whisper under an
    identifier of the generator's range, between stored profiles, with a
    body that is not empty. *)
Theorem run_keeps_state_ok (events : list Event) :
  state_ok initial_state /\
  forall st, exists st' out,
    run events st = Py.Ok (st', out) /\ (state_ok st -> state_ok st').
Proof.
  split.
  - split.
    + apply NoDup_nil_2.
    + intros d Hd. cbn in Hd. by apply elem_of_nil in Hd.
    + intros i r s body. cbn [whisper_messages initial_state].
      rewrite lookup_empty. discriminate.
  - induction events as [| ev rest IH]; intros st; cbn [run].
    + eexists _, _. split; [reflexivity | auto].
    + destruct (handle_event_effect ev st) as (st1 & out1 & Hrun1 & _).
      destruct (IH st1) as (st2 & out2 & Hrun2 & Hok2).
      rewrite Hrun1, bind_Ok. cbn beta iota. rewrite Hrun2, bind_Ok.
      eexists _, _. split; [reflexivity |].
      intros Hok. apply Hok2, (handle_event_state_ok ev st st1 out1 Hrun1 Hok).
Qed.

(** X16. A profile is never removed: an identifier stored before a run is
    stored after it. *)
Theorem run_keeps_profiles (events : list Event) (st st' : State) (out : list Output)
    (n : Z) :
  run events st = Py.Ok (st', out) -> n ∈ user_ids st -> n ∈ user_ids st'.
Proof.
  revert st st' out. induction events as [| ev rest IH]; intros st st' out; cbn [run].
  - intros [= <- _]. auto.
  - destruct (handle_event_effect ev st) as (st1 & out1 & Hrun1 & Heffect).
    rewrite Hrun1, bind_Ok. cbn beta iota.
    destruct (run rest st1) as [[st2 out2] | e] eqn:Hrun2; [| discriminate].
    rewrite bind_Ok. intros [= <- _] Hn.
    apply (IH st1 st2 out2 Hrun2).
    destruct Heffect as [-> | [(now & u & ->) | [(env & iq & r & body & _ & _ & _ & ->)
                         | (cq & g & i & r0 & body & _ & _ & _ & _ & ->)]]].
    + exact Hn.
    + apply store_user_info_ids_mono, Hn.
    + apply (store_user_info_ids_mono (now env) (iq_from_user iq)) in Hn. exact Hn.
    + exact Hn.
Qed.

(** X17. An entry leaves the store only through its sender: after one
    update a pending entry is still there unchanged, or the update was a
    press of a delete token for its identifier by its sender, or it was a
    compose query whose drawn identifier is the entry's, which put the
    querying user's new entry in its place. *)
Theorem whisper_leaves_only_by_sender (ev : Event) (st st' : State) (out : list Output)
    (i r s : Z) (body : string) :
  handle_event ev st = Py.Ok (st', out) ->
  whisper_messages st !! i = Some (r, s, body) ->
  whisper_messages st' !! i = Some (r, s, body) \/
  (exists cq g,
     ev = CallbackQueryEvent cq /\ regex_del (data cq) = Some g /\
     Py.int g = Py.Ok i /\ id (cq_from_user cq) = s /\
     whisper_messages st' !! i = None) \/
  (exists env iq r' body',
     ev = InlineQueryEvent env iq /\ generate_message_id (draw env) = i /\
     whisper_messages st' !! i = Some (r', id (iq_from_user iq), body')).
Proof.
  intros Hrun Hin.
  destruct (handle_event_effect ev st) as (st1 & out1 & Hrun1 & Heffect).
  rewrite Hrun in Hrun1. injection Hrun1 as <- <-.
  destruct Heffect as [-> | [(now & u & ->) | [(env & iq & r' & body' & -> & _ & _ & ->)
                       | (cq & g & j & r0 & body0 & -> & Hdel & Hint & Hj & ->)]]].
  - left. exact Hin.
  - left. rewrite store_user_info_whispers. exact Hin.
  - cbn [whisper_messages set_whisper_messages].
    destruct (decide (generate_message_id (draw env) = i)) as [Heq | Hne].
    + right. right. exists env, iq, r', body'.
      split; [reflexivity |]. split; [exact Heq |].
      rewrite <- Heq. apply lookup_insert_eq.
    + left. rewrite lookup_insert_ne by exact Hne. exact Hin.
  - cbn [whisper_messages set_whisper_messages].
    destruct (decide (j = i)) as [-> | Hne].
    + right. left. exists cq, g.
      rewrite Hin in Hj. injection Hj as _ <- _.
      split; [reflexivity |]. split; [exact Hdel |]. split; [exact Hint |].
      split; [reflexivity | apply lookup_delete_eq].
    + left. rewrite lookup_delete_ne by exact Hne. exact Hin.
Qed.

End Runs_of_events.

(** ** Handles and targets *)

Section HandlesAndTargets.

(** X18. The latest handle wins: with one profile per identifier, once a
    user is recorded with a handle, a lookup by handle returns that user's
    profile only for that handle; an earlier handle of the user no longer
    leads to it. *)
Theorem latest_handle_wins (now : nat -> Z) (u : User) (st : State)
    (h s : string) (d : UserDoc) :
  NoDup (user_ids st) ->
  username u = Some h -> h <> "" ->
  Py.isdigit s = false ->
  get_user_info s (users_collection (store_user_info now u st)) = Py.Ok (Some d) ->
  doc_user_id d = id u ->
  (if Py.startswith_char "@" s then Py.tail s else s) = h.
Proof.
  intros Hnd Hname Hne Hdig Hres Hid.
  assert (Htruthy : truthy (username u) = true).
  { rewrite Hname. destruct h; [congruence | reflexivity]. }
  destruct (store_user_info_find now u st) as (d0 & Hfind0 & _ & _ & _ & _ & Hh0).
  specialize (Hh0 Htruthy). rewrite Hname in Hh0.
  pose proof (get_user_info_elem _ _ _ Hres) as Hin.
  assert (Hnd1 : NoDup (doc_user_id <$> users_collection (store_user_info now u st))).
  { rewrite store_user_info_users.
    set (ud := {| doc_user_id := id u |}).
    apply (update_one_upsert_NoDup ud _ Hnd). }
  pose proof (find_one_user_id_unique _ d Hnd1 Hin) as Hfind.
  rewrite Hid, Hfind0 in Hfind. injection Hfind as ->.
  rewrite get_user_info_value, Hdig in Hres. injection Hres as Hres.
  apply find_one_username_Some in Hres as [_ Hh]. congruence.
Qed.

(** The first item of a split is a word. *)
Lemma split_maxsplit1_word (s w : string) (rest : list string) :
  Py.split_maxsplit1 s = w :: rest -> is_word w = true.
Proof.
  rewrite split_maxsplit1_chars.
  destruct (drop_space_suffix (Py.chars s)) as (pre & Hpre & _).
  pose proof (drop_space_head (Py.chars s)) as Hhead.
  pose proof (chars_nonempty s) as Hne. rewrite Hpre in Hne.
  apply Forall_app in Hne as [_ Hne].
  pose proof (chars_join_suffix pre _ s Hpre) as Hsuf.
  destruct (Py.drop_space (Py.chars s)) as [| c cs1]; [discriminate |]. cbv zeta.
  apply Forall_cons in Hne as [Hc _].
  destruct (take_word_spec (c :: cs1)) as (Hsplit & Hall & _).
  assert (Hfst : exists w', fst (Py.take_word (c :: cs1)) = c :: w').
  { cbn [Py.take_word]. rewrite Hhead. destruct (Py.take_word cs1). cbn [fst]. eauto. }
  destruct Hfst as [w' Hfst]. rewrite Hfst in *.
  assert (Hword : is_word (Py.join (c :: w')) = true).
  { unfold is_word. pose proof (join_nonempty c w' Hc) as Hj.
    destruct (Py.join (c :: w')) as [| a x] eqn:Hjoin; [congruence |].
    rewrite <- Hjoin. unfold no_space.
    rewrite Hsplit in Hsuf. rewrite join_app in Hsuf.
    rewrite <- (join_chars (Py.join (c :: w') +:+ _)) in Hsuf.
    rewrite join_chars in Hsuf.
    rewrite (chars_join_prefix (c :: w') (snd (Py.take_word (c :: cs1)))
               (Py.join (c :: w') +:+ Py.join (snd (Py.take_word (c :: cs1)))) Hsuf).
    exact Hall. }
  destruct (Py.drop_space (snd (Py.take_word (c :: cs1)))); intros [= <- _]; exact Hword.
Qed.

(** X19. What a compose query is split into: for any query, a target is a
    word (not empty, without whitespace), and a body is not empty and does
    not start with whitespace. *)
Theorem compose_form_wellformed (q : string) :
  match compose_form q with
  | NoTarget => True
  | TargetOnly target => is_word target = true
  | TargetBody target body =>
      is_word target = true /\ body <> "" /\ Py.skip_space body = body
  end.
Proof.
  unfold compose_form.
  destruct (Py.split_maxsplit1 q) as [| w [| rest [| ? ?]]]; try exact I.
  destruct (Py.split_maxsplit1 rest) as [| t [| b [| ? ?]]] eqn:Hrest; try exact I.
  - apply (split_maxsplit1_word rest t [] Hrest).
  - split; [apply (split_maxsplit1_word rest t [b] Hrest) |].
    destruct (split_maxsplit1_shape rest)
      as [Hnil | [[x Hone] | (x & y & Htwo & Hy & Hskip)]]; try congruence.
    rewrite Hrest in Htwo. injection Htwo as -> ->. split; assumption.
Qed.

End HandlesAndTargets.

(** ** Instances on the sample data *)

Section MoreInstances.

(** User 42 is found by identifier after being recorded. *)
Lemma store_then_resolve_by_id_sample :
  0 <= id Sample.user42 /\
  exists d,
    get_user_info (Py.str (id Sample.user42))
      (users_collection (store_user_info Sample.clock Sample.user42 Sample.state))
      = Py.Ok (Some d) /\
    doc_user_id d = id Sample.user42 /\
    doc_first_name d = first_name Sample.user42 /\
    doc_last_name d = last_name Sample.user42 /\
    doc_last_seen d = Sample.clock 0%nat.
Proof.
  split; [cbn; lia |].
  apply (store_then_resolve_by_id Sample.clock Sample.user42 Sample.state). cbn. lia.
Defined.

Lemma sample_alice_only_7 (d : UserDoc) :
  d ∈ users_collection Sample.state -> doc_username d = Some "alice" ->
  doc_user_id d = id Sample.user7.
Proof.
  cbn. unfold Sample.users. rewrite !elem_of_cons, elem_of_nil.
  intros [-> | [-> | [-> | []]]]; cbn; intros Hname;
    [discriminate Hname | reflexivity | discriminate Hname].
Defined.

(** User 7 is found by the handle "alice", with and without the marker. *)
Lemma store_then_resolve_by_handle_sample :
  username Sample.user7 = Some "alice" /\
  Py.isdigit "alice" = false /\
  Py.startswith_char "@" "alice" = false /\
  exists d,
    get_user_info "alice"
      (users_collection (store_user_info Sample.clock Sample.user7 Sample.state))
      = Py.Ok (Some d) /\
    get_user_info "@alice"
      (users_collection (store_user_info Sample.clock Sample.user7 Sample.state))
      = Py.Ok (Some d) /\
    doc_user_id d = id Sample.user7 /\
    doc_username d = Some "alice".
Proof.
  repeat (split; [reflexivity |]).
  apply (store_then_resolve_by_handle Sample.clock Sample.user7 Sample.state "alice"
           eq_refl ltac:(discriminate) eq_refl eq_refl sample_alice_only_7).
Defined.

(** The document found for "@alice" is stored and carries "alice". *)
Lemma get_user_info_sound_sample :
  get_user_info "@alice" Sample.users = Py.Ok (Some Sample.doc7) /\
  Sample.doc7 ∈ Sample.users /\
  doc_username Sample.doc7 = Some "alice".
Proof.
  split; [reflexivity |].
  exact (get_user_info_sound "@alice" Sample.users Sample.doc7 eq_refl).
Defined.

(** The token with a line feed at its end matches. *)
Lemma regex_token_iff_sample :
  Py.isdigit "10000000" = true /\
  regex_token "show_" ("show_" +:+ "10000000" +:+ nl) = Some "10000000".
Proof.
  split; [reflexivity |].
  apply (regex_token_iff "show_" ("show_" +:+ "10000000" +:+ nl) "10000000").
  split; [reflexivity | right; reflexivity].
Defined.

(** A press of the delete token by the sender: one alert and the edit. *)
Lemma on_callback_query_one_alert_sample :
  on_callback_query (mkCallbackQuery "del_10000000" Sample.user7) Sample.state
    = Some (Py.Ok (Sample.no_whispers,
                   [CallbackAnswer "Message deleted." true;
                    EditMessageText "🗑 **This message has been deleted.**"])) /\
  exists st' text rest,
    Py.Ok (Sample.no_whispers,
           [CallbackAnswer "Message deleted." true;
            EditMessageText "🗑 **This message has been deleted.**"])
    = Py.Ok (st', CallbackAnswer text true :: rest) /\
    (rest = [] \/
     (rest = [EditMessageText "🗑 **This message has been deleted.**"] /\
      text = "Message deleted." /\
      regex_show (data (mkCallbackQuery "del_10000000" Sample.user7)) = None)).
Proof.
  split; [reflexivity |].
  pose proof (on_callback_query_one_alert
                (mkCallbackQuery "del_10000000" Sample.user7) Sample.state)
    as (_ & _ & Halert).
  exact (Halert _ eq_refl).
Defined.

(** The same press leaves the profiles as they are. *)
Lemma on_callback_query_frame_sample :
  on_callback_query (mkCallbackQuery "del_10000000" Sample.user7) Sample.state
    = Some (Py.Ok (Sample.no_whispers,
                   [CallbackAnswer "Message deleted." true;
                    EditMessageText "🗑 **This message has been deleted.**"])) /\
  users_collection Sample.no_whispers = users_collection Sample.state /\
  whisper_messages Sample.no_whispers ⊆ whisper_messages Sample.state.
Proof.
  split; [reflexivity |].
  pose proof (on_callback_query_frame
                (mkCallbackQuery "del_10000000" Sample.user7) Sample.state
                Sample.no_whispers _ eq_refl) as (Husers & _ & _ & Hsub & _).
  split; [exact Husers | exact Hsub].
Defined.

(** "wspr", a no-break space, "42", a blank, and a body behind another
    no-break space, from user 7: the body keeps its inner blanks. *)
Lemma compose_stores_body_sample :
  is_word "wspr" = true /\ Py.isspace SampleText.nbsp = true /\
  is_word "42" = true /\ Py.isspace " " = true /\
  Py.skip_space (SampleText.nbsp +:+ "hi  there ") = "hi  there " /\
  get_user_info "42"
    (users_collection (store_user_info (now Sample.env) Sample.user7 Sample.no_whispers))
    = Py.Ok (Some Sample.doc42) /\
  exists st' calls,
    handle_wspr_query Sample.env
      (mkInlineQuery
         ("wspr" +:+ SampleText.nbsp +:+ "42" +:+ " " +:+ SampleText.nbsp +:+ "hi  there ")
         Sample.user7) Sample.no_whispers
      = Py.Ok (st', calls) /\
    whisper_messages st' !! generate_message_id (draw Sample.env)
      = Some (doc_user_id Sample.doc42, id Sample.user7,
              Py.skip_space (SampleText.nbsp +:+ "hi  there ")).
Proof.
  repeat (split; [reflexivity |]).
  apply (compose_stores_body Sample.env Sample.user7 Sample.no_whispers
           "wspr" SampleText.nbsp "42" " " (SampleText.nbsp +:+ "hi  there ") Sample.doc42
           eq_refl eq_refl eq_refl eq_refl eq_refl eq_refl
           ltac:(vm_compute; discriminate) eq_refl).
Defined.

(** The buttons of the answer to "wspr 42 hi" from user 7. *)
Lemma compose_buttons_work_sample :
  compose_form "wspr 42 hi" = TargetBody "42" "hi" /\
  exists st' article show_text show_token del_text del_token row,
    handle_wspr_query Sample.env (mkInlineQuery "wspr 42 hi" Sample.user7)
      Sample.no_whispers
      = Py.Ok (st', [InlineAnswer [article] (Some 1)]) /\
    reply_markup article =
      Some [[CallbackButton show_text show_token; CallbackButton del_text del_token]; row] /\
    on_callback_query (mkCallbackQuery show_token Sample.user42) st' =
      Some (Py.Ok (st', [CallbackAnswer "hi" true])).
Proof.
  split; [reflexivity |].
  destruct (compose_buttons_work Sample.env (mkInlineQuery "wspr 42 hi" Sample.user7)
              Sample.no_whispers "42" "hi" Sample.doc42 eq_refl eq_refl)
    as (st' & article & t1 & k1 & t2 & k2 & row & Hrun & Hmarkup & Hpress).
  exists st', article, t1, k1, t2, k2, row.
  split; [exact Hrun |]. split; [exact Hmarkup |].
  exact (proj1 (Hpress Sample.user42)).
Defined.

(** Composing "wspr 42 hi" and deleting it leaves no whisper behind. *)
Lemma compose_then_delete_restores_sample :
  whisper_messages Sample.no_whispers !! generate_message_id (draw Sample.env) = None /\
  exists st1 calls1 st2 calls2,
    handle_wspr_query Sample.env (mkInlineQuery "wspr 42 hi" Sample.user7)
      Sample.no_whispers = Py.Ok (st1, calls1) /\
    on_callback_query
      (mkCallbackQuery ("del_" +:+ Py.str (generate_message_id (draw Sample.env)))
         Sample.user7) st1
      = Some (Py.Ok (st2, calls2)) /\
    whisper_messages st2 = whisper_messages Sample.no_whispers /\
    users_collection st2 = users_collection st1.
Proof.
  split; [reflexivity |].
  apply (compose_then_delete_restores Sample.env
           (mkInlineQuery "wspr 42 hi" Sample.user7) Sample.no_whispers
           "42" "hi" Sample.doc42 eq_refl eq_refl eq_refl).
Defined.

(** User 99, unknown to a fresh process, whispers to 99. *)
Lemma self_whisper_first_contact_sample :
  0 <= id Sample.user99 /\
  exists st' calls,
    handle_wspr_query Sample.env
      (mkInlineQuery
         ("wspr" +:+ " " +:+ Py.str (id Sample.user99) +:+ SampleText.nbsp +:+ "note")
         Sample.user99) initial_state
      = Py.Ok (st', calls) /\
    whisper_messages st' !! generate_message_id (draw Sample.env)
      = Some (id Sample.user99, id Sample.user99, Py.skip_space "note").
Proof.
  split; [cbn; lia |].
  apply (self_whisper_first_contact Sample.env Sample.user99 initial_state
           "wspr" " " SampleText.nbsp "note" eq_refl eq_refl eq_refl
           ltac:(cbn; lia) eq_refl ltac:(vm_compute; discriminate)).
Defined.

(** The card for "msg 123" and the whisper its button composes. *)
Lemma info_card_button_composes_sample :
  Py.split_maxsplit1 "msg 123" = ["msg"; "123"] /\
  truthy (doc_username Sample.doc123) = false /\
  exists article url prefilled st2 calls,
    handle_msg_query Sample.env (mkInlineQuery "msg 123" Sample.user7) Sample.no_whispers
      = Py.Ok (store_user_info (now Sample.env) Sample.user7 Sample.no_whispers,
               [InfoAnswer [article] (Some 60)]) /\
    info_markup article =
      Some [[UrlButton "Private" url; SwitchButton "Secret Message" prefilled]] /\
    handle_wspr_query Sample.env (mkInlineQuery prefilled Sample.user7)
      (store_user_info (now Sample.env) Sample.user7 Sample.no_whispers)
      = Py.Ok (st2, calls) /\
    whisper_messages st2 !! generate_message_id (draw Sample.env)
      = Some (doc_user_id Sample.doc123, id Sample.user7, "Hello 👋").
Proof.
  split; [reflexivity |]. split; [reflexivity |].
  apply (info_card_button_composes Sample.env Sample.env
           (mkInlineQuery "msg 123" Sample.user7) Sample.no_whispers
           "msg" "123" Sample.doc123 Sample.user7
           eq_refl eq_refl eq_refl ltac:(cbn; lia)).
Defined.

(** A short life of the bot from a fresh process. *)
Lemma run_keeps_state_ok_sample :
  state_ok initial_state /\
  exists st' out,
    run [StartCommand Sample.env (Some "whisper_bot") Sample.user7;
         InlineQueryEvent Sample.env (mkInlineQuery "wspr 7 hi" Sample.user7);
         CallbackQueryEvent (mkCallbackQuery "show_10000000" Sample.user7);
         HelpCommand (Some "whisper_bot")] initial_state
      = Py.Ok (st', out) /\
    state_ok st'.
Proof.
  pose proof (run_keeps_state_ok
                [StartCommand Sample.env (Some "whisper_bot") Sample.user7;
                 InlineQueryEvent Sample.env (mkInlineQuery "wspr 7 hi" Sample.user7);
                 CallbackQueryEvent (mkCallbackQuery "show_10000000" Sample.user7);
                 HelpCommand (Some "whisper_bot")]) as [Hinit Hrun].
  split; [exact Hinit |].
  destruct (Hrun initial_state) as (st' & out & Heq & Hok).
  exists st', out. split; [exact Heq | exact (Hok Hinit)].
Defined.

Lemma sample_42_stored : 42 ∈ user_ids Sample.state.
Proof.
  unfold user_ids. cbn. rewrite elem_of_cons. left. reflexivity.
Defined.

(** Profile 42 is still stored after the sender deletes the whisper. *)
Lemma run_keeps_profiles_sample :
  run [CallbackQueryEvent (mkCallbackQuery "del_10000000" Sample.user7)] Sample.state
    = Py.Ok (Sample.no_whispers,
             [Platform (CallbackAnswer "Message deleted." true);
              Platform (EditMessageText "🗑 **This message has been deleted.**")]) /\
  42 ∈ user_ids Sample.state /\
  42 ∈ user_ids Sample.no_whispers.
Proof.
  split; [reflexivity |]. split; [exact sample_42_stored |].
  exact (run_keeps_profiles
           [CallbackQueryEvent (mkCallbackQuery "del_10000000" Sample.user7)]
           Sample.state Sample.no_whispers _ 42 eq_refl sample_42_stored).
Defined.

(** A press of a delete token by user 99 does not remove the entry. *)
Lemma whisper_leaves_only_by_sender_sample :
  handle_event (CallbackQueryEvent (mkCallbackQuery "del_10000000" Sample.user99))
    Sample.state
    = Py.Ok (Sample.state,
             [Platform (CallbackAnswer "Only the sender can delete this message." true)]) /\
  whisper_messages Sample.state !! 10000000 = Some (42, 7, "hi") /\
  (whisper_messages Sample.state !! 10000000 = Some (42, 7, "hi") \/
   (exists cq g,
      CallbackQueryEvent (mkCallbackQuery "del_10000000" Sample.user99)
        = CallbackQueryEvent cq /\
      regex_del (data cq) = Some g /\ Py.int g = Py.Ok 10000000 /\
      id (cq_from_user cq) = 7 /\
      whisper_messages Sample.state !! 10000000 = None) \/
   (exists env iq r' body',
      CallbackQueryEvent (mkCallbackQuery "del_10000000" Sample.user99)
        = InlineQueryEvent env iq /\
      generate_message_id (draw env) = 10000000 /\
      whisper_messages Sample.state !! 10000000
        = Some (r', id (iq_from_user iq), body'))).
Proof.
  split; [reflexivity |]. split; [reflexivity |].
  exact (whisper_leaves_only_by_sender
           (CallbackQueryEvent (mkCallbackQuery "del_10000000" Sample.user99))
           Sample.state Sample.state _ 10000000 42 7 "hi" eq_refl eq_refl).
Defined.

Lemma sample_ids_distinct : NoDup (user_ids Sample.state).
Proof. apply (bool_decide_unpack _). vm_compute. exact I. Defined.

(** User 7 takes the handle "al2": the profile answers to "@al2". *)
Lemma latest_handle_wins_sample :
  NoDup (user_ids Sample.state) /\
  get_user_info "@al2"
    (users_collection
       (store_user_info Sample.clock (mkUser 7 (Some "Al") None (Some "al2")) Sample.state))
    = Py.Ok (Some (mkUserDoc 7 (Some "Al") None 200 (Some "al2"))) /\
  Py.tail "@al2" = "al2".
Proof.
  split; [exact sample_ids_distinct |]. split; [reflexivity |].
  exact (latest_handle_wins Sample.clock (mkUser 7 (Some "Al") None (Some "al2"))
           Sample.state "al2" "@al2" (mkUserDoc 7 (Some "Al") None 200 (Some "al2"))
           sample_ids_distinct eq_refl ltac:(discriminate) eq_refl eq_refl eq_refl).
Defined.

End MoreInstances.

(** ** Instances with text beyond ASCII *)

Section TextInstances.

Import SecretStore.

(** The no-break space separates words like any whitespace. *)
Example nbsp_separates :
  let q := "wspr" +:+ SampleText.nbsp +:+ "42" +:+ SampleText.nbsp +:+ "hi" in
  Py.isspace SampleText.nbsp = true /\
  Py.split_maxsplit1 q = ["wspr"; "42" +:+ SampleText.nbsp +:+ "hi"] /\
  Py.split_maxsplit1 ("42" +:+ SampleText.nbsp +:+ "hi") = ["42"; "hi"] /\
  compose_form q = TargetBody "42" "hi".
Proof. repeat split; vm_compute; reflexivity. Qed.

(** More queries with a no-break space: whitespace before the body is
    dropped whatever its kind, and the first word ends at the first
    whitespace character. *)
Example nbsp_queries :
  compose_form ("wspr 42 " +:+ SampleText.nbsp +:+ "hi") = TargetBody "42" "hi" /\
  Py.split_maxsplit1 ("msg" +:+ SampleText.nbsp +:+ "123") = ["msg"; "123"] /\
  Py.split_maxsplit1 ("msg" +:+ SampleText.nbsp +:+ "x 123") = ["msg"; "x 123"] /\
  compose_form ("wspr" +:+ SampleText.nbsp +:+ "x 99 note") = TargetBody "x" "99 note" /\
  is_word ("wspr" +:+ SampleText.nbsp +:+ "x") = false.
Proof. repeat split; vm_compute; reflexivity. Qed.

(** The info query with a no-break space behind the command looks the
    target up: "msg<NBSP>123" gives the card of profile 123, and in
    "msg<NBSP>x 123" the target is "x 123", which is not found. *)
Example msg_nbsp_queries :
  (exists article,
     handle_msg_query Sample.env
       (mkInlineQuery ("msg" +:+ SampleText.nbsp +:+ "123") Sample.user7) Sample.state
     = Py.Ok (store_user_info Sample.clock Sample.user7 Sample.state,
              [InfoAnswer [article] (Some 60)]) /\
     info_title article = Some "Cy") /\
  (exists article,
     handle_msg_query Sample.env
       (mkInlineQuery ("msg" +:+ SampleText.nbsp +:+ "x 123") Sample.user7) Sample.state
     = Py.Ok (store_user_info Sample.clock Sample.user7 Sample.state,
              [InfoAnswer [article] None]) /\
     info_title article = Some "Can't find user: x 123").
Proof. split; eexists; split; vm_compute; reflexivity. Qed.

(** Digits of another script denote an identifier; a digit that is not
    decimal passes [isdigit] and makes [int] raise, which
    [get_user_info] turns into [None]. *)
Example digits_of_other_scripts :
  Py.isdigit SampleText.arabic_123 = true /\
  Py.int SampleText.arabic_123 = Py.Ok 123 /\
  get_user_info SampleText.arabic_123 Sample.users = Py.Ok (Some Sample.doc123) /\
  regex_show ("show_" +:+ SampleText.arabic_123) = Some SampleText.arabic_123 /\
  Py.isdigit SampleText.superscript_two = true /\
  Py.isdecimal SampleText.superscript_two = false /\
  Py.int SampleText.superscript_two = Py.Raise Py.ValueError /\
  get_user_info SampleText.superscript_two Sample.users = Py.Ok None /\
  regex_show ("show_" +:+ SampleText.superscript_two) = None.
Proof. repeat split; vm_compute; reflexivity. Qed.

(** [scenario_42_7_hi] with the draw 0, which gives the identifier
    10000000, from the sample state without whispers. *)
Lemma scenario_42_7_hi_sample :
  (id Sample.user42 = 42 /\ id Sample.user7 = 7 /\ id Sample.user99 = 99) /\
  (reveal 10000000 42 Sample.pending = Body "hi" /\
   reveal 10000000 7 Sample.pending = RevealDenied /\
   delete 10000000 99 Sample.pending = (DeleteDenied, Sample.pending) /\
   fst (delete 10000000 7 Sample.pending) = DeleteOk /\
   reveal 10000000 42 (snd (delete 10000000 7 Sample.pending)) = RevealNotFound) /\
  (on_callback_query (mkCallbackQuery "show_10000000" Sample.user42) Sample.state
     = Some (Py.Ok (Sample.state, [CallbackAnswer "hi" true])) /\
   on_callback_query (mkCallbackQuery "show_10000000" Sample.user7) Sample.state
     = Some (Py.Ok (Sample.state, [CallbackAnswer "This message is not for you." true])) /\
   on_callback_query (mkCallbackQuery "del_10000000" Sample.user99) Sample.state
     = Some (Py.Ok (Sample.state,
                    [CallbackAnswer "Only the sender can delete this message." true])) /\
   on_callback_query (mkCallbackQuery "del_10000000" Sample.user7) Sample.state
     = Some (Py.Ok (Sample.no_whispers,
                    [CallbackAnswer "Message deleted." true;
                     EditMessageText "🗑 **This message has been deleted.**"])) /\
   on_callback_query (mkCallbackQuery "show_10000000" Sample.user42) Sample.no_whispers
     = Some (Py.Ok (Sample.no_whispers,
                    [CallbackAnswer "This message has expired or does not exist." true]))) /\
  (exists article,
     handle_wspr_query Sample.env (mkInlineQuery "wspr 42 hi" Sample.user7) Sample.no_whispers
       = Py.Ok (set_whisper_messages Sample.pending
                  (store_user_info Sample.clock Sample.user7 Sample.no_whispers),
                [InlineAnswer [article] (Some 1)]) /\
     reply_markup article =
       Some [[CallbackButton "📖 Show Message" "show_10000000";
              CallbackButton "🗑 Delete" "del_10000000"];
             [SwitchInlineButton "📝 New Message" "wspr 42 "]]).
Proof.
  split; [repeat split; reflexivity |].
  pose proof (scenario_42_7_hi 0 Sample.no_whispers Sample.user42 Sample.user7 Sample.user99
                eq_refl eq_refl eq_refl) as (Hstore & Hpress & Hquery).
  split; [exact Hstore |].
  split; [exact (Hpress Sample.state eq_refl) |].
  exact (Hquery Sample.env eq_refl sample_42_stored).
Defined.


End TextInstances.
